(** * Reference evapotranspiration (FAO Penman-Monteith): the program and its specification

    A shallow embedding of [evapotranspiration.py].

    The script reads a table of daily weather records with pandas, and for each
    row evaluates four closed-form formulas ([calculate_VPD], [calculate_delta],
    [Rn], [penman_monteith]) and stores [round(ET0, 1)] in a new column.

    How the numbers are modelled.  The functions of Python's [math] module
    raise: [ValueError] on a domain error, [OverflowError] on a range error;
    they are written in an error monad.  What the arithmetic ([+ - * / **])
    does depends on the floats that pandas hands to the loop.  The values of
    a row of a table whose columns are all numeric are numpy [float64]
    scalars: their arithmetic follows IEEE 754 and never raises, a division
    by zero gives an infinity or a NaN (with a warning on stderr).  The
    values of a row of a table with a column that is not numeric are plain
    Python floats: their division by zero raises [ZeroDivisionError].

    The formulas are written twice, each time in the order in which the
    source applies them.  First over an interface [PyFloat] of total
    operations, with two instances: the real numbers (the exact reading of
    the formulas, on which the geometry of the radiation is studied) and
    IEEE binary64 (Rocq's primitive floats, with the elementary functions of
    the C library as parameters), which is the program on numpy scalars.
    Then, in the module [Scalars], in binary64 with the kind of float as a
    parameter and the division and the power in the error monad: the program
    on either kind of row.  On numpy scalars the two coincide
    ([row_ET0_numpy], [main_numpy]). *)

From Stdlib Require Import ZArith List String Ascii Bool Floats Uint63.
From Stdlib Require Import Reals Lra Lia.
Import ListNotations.

Set Implicit Arguments.

(** ** Decimal literals

    A literal of the source ([0.618], [4.903e-09], [273]) is kept as written:
    a mantissa and a power of ten.  Each instance gives it its value. *)

Record literal : Set := Lit { mantissa : Z ; exponent10 : Z }.

Module LiteralSyntax.

Fixpoint ulength (u : Decimal.uint) : nat :=
  match u with
  | Decimal.Nil => O
  | Decimal.D0 u | Decimal.D1 u | Decimal.D2 u | Decimal.D3 u | Decimal.D4 u
  | Decimal.D5 u | Decimal.D6 u | Decimal.D7 u | Decimal.D8 u | Decimal.D9 u =>
      S (ulength u)
  end.

Definition of_decimal (d : Decimal.decimal) : literal :=
  match d with
  | Decimal.Decimal i f =>
      Lit (Z.of_int (Decimal.app_int i f)) (- Z.of_nat (ulength f))
  | Decimal.DecimalExp i f e =>
      Lit (Z.of_int (Decimal.app_int i f)) (Z.of_int e - Z.of_nat (ulength f))
  end.

Definition of_number (n : Number.number) : option literal :=
  match n with
  | Number.Decimal d => Some (of_decimal d)
  | Number.Hexadecimal _ => None
  end.

Definition to_number (l : literal) : option Number.number :=
  if (exponent10 l =? 0)%Z
  then Some (Number.Decimal (Decimal.Decimal (Z.to_int (mantissa l)) Decimal.Nil))
  else None.

End LiteralSyntax.

Declare Scope literal_scope.
Delimit Scope literal_scope with lit.
Number Notation literal LiteralSyntax.of_number LiteralSyntax.to_number : literal_scope.

(** ** Exceptions and the error monad *)

Inductive exn : Set :=
| ValueError          (* math domain error *)
| OverflowError       (* math range error *)
| FileNotFoundError
| IOError (msg : string)
| UnboundLocalError
| ZeroDivisionError   (* float division by zero *)
| TypeError
| OtherError (msg : string).

Inductive result (A : Type) : Type :=
| Ok (a : A)
| Raise (e : exn).

Arguments Ok {A} a.
Arguments Raise {A} e.

Definition bind {A B : Type} (m : result A) (k : A -> result B) : result B :=
  match m with
  | Ok a => k a
  | Raise e => Raise e
  end.

(** The two exceptions of the [math] module. *)
Definition raises_only_math_errors {A : Type} (r : result A) : Prop :=
  match r with
  | Ok _ => True
  | Raise e => e = ValueError \/ e = OverflowError
  end.

(** The exceptions that the arithmetic of plain Python floats adds to them. *)
Definition raises_only_plain_float_errors {A : Type} (r : result A) : Prop :=
  match r with
  | Ok _ => True
  | Raise e =>
      e = ValueError \/ e = OverflowError \/ e = ZeroDivisionError \/ e = TypeError
  end.

(** The double quote character, for the messages that print one. *)
Definition dquote : string := String (ascii_of_nat 34) EmptyString.

Declare Scope py_scope.
Delimit Scope py_scope with py.

Notation "x <- m ;; k" := (bind m (fun x => k))
  (at level 61, m at next level, right associativity) : py_scope.
Notation "' pat <- m ;; k" := (bind m (fun x => match x with pat => k end))
  (at level 61, pat pattern, m at next level, right associativity) : py_scope.

(** ** The arithmetic the formulas use *)

Class PyFloat (F : Type) : Type := {
  lit : literal -> F;
  add : F -> F -> F;
  sub : F -> F -> F;
  mul : F -> F -> F;
  div : F -> F -> F;
  pow : F -> F -> F;                 (* x ** y *)
  neg : F -> F;
  math_pi : F;
  math_exp : F -> result F;
  math_sin : F -> result F;
  math_cos : F -> result F;
  math_tan : F -> result F;
  math_acos : F -> result F;
  round_ndigits : F -> Z -> F        (* round(x, ndigits) *)
}.

Notation "# l" := (lit l%lit) (at level 1, l constr at level 0, format "# l") : py_scope.
Infix "+" := add : py_scope.
Infix "-" := sub : py_scope.
Infix "*" := mul : py_scope.
Infix "/" := div : py_scope.
Infix "**" := pow (at level 30, right associativity) : py_scope.
Notation "- x" := (neg x) : py_scope.

Local Open Scope py_scope.

(** ** The program *)

Section Program.

Context {F : Type} {num : PyFloat F}.

(** Module constants. *)
Definition albedo : F := #0.23.
Definition a_s : F := #0.25.
Definition b_s : F := #0.50.

(** [calculate_VPD]: mean saturation vapour pressure [es] and actual vapour
    pressure [ea]. *)
Definition calculate_VPD (Tmin Tmax RHmin RHmax : F) : result (F * F) :=
  x_min <- math_exp ((#17.27 * Tmin) / (Tmin + #237.3)) ;;
  let e0T_min := #0.618 * x_min in
  x_max <- math_exp ((#17.27 * Tmax) / (Tmax + #237.3)) ;;
  let e0T_max := #0.618 * x_max in
  let es := (e0T_min + e0T_max) / #2 in
  let ea := ((e0T_min * RHmax) + (e0T_max * RHmin)) / #200 in
  Ok (es, ea).

(** [calculate_delta]: slope of the saturation vapour pressure curve. *)
Definition calculate_delta (T_mean : F) : result F :=
  x <- math_exp (#17.27 * T_mean / (T_mean + #237.3)) ;;
  Ok (#4098 * #0.6108 * x / ((T_mean + #237.3) ** #2)).

(** [Rn]: net radiation.  [Rn_locals] runs the body of the function and
    returns its local variables; [Rn] returns [Rns - Rnl]. *)
Record Rn_frame : Type := {
  latitude : F;
  d_r : F;
  solar_declination : F;
  sunset_hour_angle : F;
  Ra : F;
  N : F;
  Rs : F;
  Rs0 : F;
  Rns : F;
  Rnl : F
}.

Definition Rn_locals (lat doy n ea T_min T_max altitude : F) : result Rn_frame :=
  let latitude := lat * math_pi / #180 in
  c <- math_cos (#2 * math_pi * doy / #365) ;;
  let d_r := #1 + #0.033 * c in
  s <- math_sin (#2 * math_pi * doy / #365 - #1.39) ;;
  let solar_declination := #0.409 * s in
  tan_lat <- math_tan latitude ;;
  tan_decl <- math_tan solar_declination ;;
  sunset_hour_angle <- math_acos (- tan_lat * tan_decl) ;;
  sin_lat <- math_sin latitude ;;
  sin_decl <- math_sin solar_declination ;;
  cos_lat <- math_cos latitude ;;
  cos_decl <- math_cos solar_declination ;;
  sin_sha <- math_sin sunset_hour_angle ;;
  let Ra := #24 * #60 / math_pi * #0.082 * d_r
            * (sunset_hour_angle * sin_lat * sin_decl + cos_lat * cos_decl * sin_sha) in
  let N := (#24 * sunset_hour_angle) / math_pi in
  let Rs := (a_s + ((b_s * n) / N)) * Ra in
  let Rs0 := (#0.75 + #2e-5 * altitude) * Ra in
  let Rns := (#1 - albedo) * Rs in
  let Rnl := #4.903e-09 * (((T_min + #273.16) ** #4 + (T_max + #273) ** #4) / #2)
             * (#0.34 - (#0.14 * (ea ** #0.5))) * (#1.35 * Rs / Rs0 - #0.35) in
  Ok {| latitude := latitude; d_r := d_r; solar_declination := solar_declination;
        sunset_hour_angle := sunset_hour_angle; Ra := Ra; N := N; Rs := Rs;
        Rs0 := Rs0; Rns := Rns; Rnl := Rnl |}.

Definition Rn (lat doy n ea T_min T_max altitude : F) : result F :=
  fr <- Rn_locals lat doy n ea T_min T_max altitude ;;
  Ok (Rns fr - Rnl fr).

(** [penman_monteith]: the combination equation.  [air_pressure] is a
    parameter of the source function. *)
Definition penman_monteith (T delta wind_speed Rn air_pressure gamma ea es : F) : F :=
  ((#0.408 * delta * Rn) + (gamma * (#900 / (T + #273)) * wind_speed * (es - ea)))
  / (delta + gamma * (#1 + (#0.34 * wind_speed))).

(** One row of the input table: the eleven columns [main] reads. *)
Record WeatherRecord : Type := {
  lat : F;
  Tmin : F;
  Tmax : F;
  Tmean : F;
  RHmin : F;
  RHmax : F;
  uz : F;
  n : F;
  pressure : F;
  doy : F;
  z : F
}.

(** The body of the loop of [main]: the value stored in column [ET0] of the
    row. *)
Definition row_ET0 (row : WeatherRecord) : result F :=
  delta <- calculate_delta (Tmean row) ;;
  let gamma := #0.000665 * pressure row in
  '(es, ea) <- calculate_VPD (Tmin row) (Tmax row) (RHmin row) (RHmax row) ;;
  solar_radiation <- Rn (lat row) (doy row) (n row) ea (Tmin row) (Tmax row) (z row) ;;
  let ET0 := penman_monteith (Tmean row) delta (uz row) solar_radiation
                             (pressure row) gamma ea es in
  Ok (round_ndigits ET0 1).

(** The loop of [main] over the rows of the table, in order.  The result is
    the table with its new column; an exception leaves the loop. *)
Fixpoint main_loop (df : list WeatherRecord) : result (list (WeatherRecord * F)) :=
  match df with
  | [] => Ok []
  | row :: rest =>
      ET0 <- row_ET0 row ;;
      out <- main_loop rest ;;
      Ok ((row, ET0) :: out)
  end.

(** [read_data].  [read_csv] stands for [pd.read_csv]: a table, or the
    exception it raises.  The local variable [df] is bound only when the call
    returns; reading an unbound local raises [UnboundLocalError].  The
    function returns what it printed and its outcome. *)
Definition DataFrame : Type := list WeatherRecord.

Definition read_data (read_csv : string -> result DataFrame) (file : string)
  : list string * result DataFrame :=
  let '(stdout, df) :=
    match read_csv file with
    | Ok table => ([], Ok (Some table))
    | Raise FileNotFoundError =>
        (["File '" ++ file ++ "' not found."]%string, Ok None)
    | Raise (IOError e) =>
        (["An error occurred while reading the file: " ++ e]%string, Ok None)
    | Raise e => ([], Raise e)
    end in
  (stdout,
   local <- df ;;
   match local with
   | Some table => Ok table
   | None => Raise UnboundLocalError
   end).

(** [main], from the parsed arguments [file] and [result_path].  The outcome
    is what was printed, the table written (if any) and the value returned or
    the exception that ends the program. *)
Record outcome : Type := {
  printed : list string;
  written : option (string * list (WeatherRecord * F));
  returned : result Z
}.

Definition main (read_csv : string -> result DataFrame) (file result_path : string)
  : outcome :=
  let '(stdout, r) := read_data read_csv file in
  match r with
  | Raise e => {| printed := stdout; written := None; returned := Raise e |}
  | Ok df =>
      match main_loop df with
      | Raise e => {| printed := stdout; written := None; returned := Raise e |}
      | Ok table =>
          {| printed := stdout ++ [("Results saved in " ++ dquote ++ result_path
                                     ++ dquote)%string];
             written := Some (result_path, table);
             returned := Ok 0%Z |}
      end
  end.

End Program.

Arguments Rn_frame F : clear implicits.
Arguments WeatherRecord F : clear implicits.
Arguments DataFrame F : clear implicits.
Arguments outcome F : clear implicits.

(** ** First instance: the real numbers

    The exact reading of the formulas.  A literal is the decimal it denotes,
    the operations are those of the field, [math.pi] is [PI].  Of the [math]
    functions only [acos] can fail on a real argument: outside [[-1, 1]] it
    has no value and Python raises [ValueError].  Where IEEE arithmetic would
    give an infinity or a NaN (a zero divisor, a negative base under a
    fractional exponent) the real operation has some value of no meaning:
    what is proved over the reals is a property of the formulas where they
    are defined, and the binary64 instance tells what happens elsewhere. *)

Definition Rlit (l : literal) : R :=
  match exponent10 l with
  | Z0 => IZR (mantissa l)
  | Zpos p => IZR (mantissa l) * IZR (Z.pow_pos 10 p)
  | Zneg p => IZR (mantissa l) / IZR (Z.pow_pos 10 p)
  end.

(** [x ** y]: an integer exponent is a repeated product (or its inverse); any
    other exponent is [exp (y * ln x)] on a positive base, and gives [0] on a
    base that is zero or negative (for [y = 0.5]: the square root, as [sqrt]
    has it). *)
Definition Rpow (x y : R) : R :=
  if Req_dec_T (IZR (Zfloor y)) y then powerRZ x (Zfloor y)
  else if Rlt_dec 0 x then Rpower x y
  else 0%R.

(** Rounding to the nearest integer, ties to even, and [round(x, ndigits)] as
    numpy computes it: scale, round, scale back. *)
Definition Rrint (x : R) : Z :=
  let k := Zfloor x in
  let f := (x - IZR k)%R in
  if Rlt_dec f (1 / 2) then k
  else if Rlt_dec (1 / 2) f then (k + 1)%Z
  else if Z.even k then k else (k + 1)%Z.

Definition Rround (x : R) (ndigits : Z) : R :=
  (IZR (Rrint (x * powerRZ 10 ndigits)) / powerRZ 10 ndigits)%R.

Definition Racos (x : R) : result R :=
  if Rle_dec (-1) x then
    if Rle_dec x 1 then Ok (acos x) else Raise ValueError
  else Raise ValueError.

#[export] Instance PyFloat_R : PyFloat R := {|
  lit := Rlit;
  add := Rplus;
  sub := Rminus;
  mul := Rmult;
  div := Rdiv;
  pow := Rpow;
  neg := Ropp;
  math_pi := PI;
  math_exp := fun x => Ok (exp x);
  math_sin := fun x => Ok (sin x);
  math_cos := fun x => Ok (cos x);
  math_tan := fun x => Ok (tan x);
  math_acos := Racos;
  round_ndigits := Rround
|}.

(** ** Second instance: binary64 floating point

    The arithmetic is IEEE 754 binary64 (Rocq's primitive floats).  The
    elementary functions of the C library are parameters: the model fixes
    only what C99 (Annex F) fixes for them at the special arguments, and what
    CPython's [math] module does with the result ([math_1] in
    [mathmodule.c]): a NaN from a non-NaN argument is a [ValueError], an
    infinity from a finite argument is an [OverflowError] for [exp] and a
    [ValueError] for the others. *)


(** The elementary functions of the C library. *)
Class Libm : Type := {
  libm_exp : float -> float;
  libm_sin : float -> float;
  libm_cos : float -> float;
  libm_tan : float -> float;
  libm_acos : float -> float;
  libm_rint : float -> float;
  libm_pow : float -> float -> float
}.

Section Binary64.

Local Open Scope float_scope.

Context {libm : Libm}.

Definition float_of_Z (k : Z) : float :=
  match k with
  | Z0 => 0
  | Zpos _ => of_uint63 (Uint63.of_Z k)
  | Zneg p => - of_uint63 (Uint63.of_Z (Zpos p))
  end.

(** A decimal literal is the float nearest to it: one correctly rounded
    division of two integers that binary64 holds exactly (every literal of
    the program has its mantissa and its power of ten below [2^53]). *)
Definition float_lit (l : literal) : float :=
  match exponent10 l with
  | Z0 => float_of_Z (mantissa l)
  | Zpos p => float_of_Z (mantissa l) * float_of_Z (Z.pow_pos 10 p)
  | Zneg p => float_of_Z (mantissa l) / float_of_Z (Z.pow_pos 10 p)
  end.

Definition float_is_integer (y : float) : bool :=
  match Prim2SF y with
  | S754_zero _ => true
  | S754_finite _ m e =>
      if (0 <=? e)%Z then true else (Zpos m mod 2 ^ (- e) =? 0)%Z
  | _ => false
  end.

Definition float_is_odd_integer (y : float) : bool :=
  match Prim2SF y with
  | S754_finite _ m e =>
      if (e =? 0)%Z then Z.odd (Zpos m)
      else if (0 <? e)%Z then false
      else (Zpos m mod 2 ^ (- e) =? 0)%Z && Z.odd (Zpos m / 2 ^ (- e))
  | _ => false
  end.

(** The C functions, with the values C99 prescribes at special arguments. *)
Definition c_exp (x : float) : float :=
  if is_nan x then nan
  else if x =? infinity then infinity
  else if x =? neg_infinity then 0
  else libm_exp x.

Definition c_trig (f : float -> float) (x : float) : float :=
  if is_nan x || is_infinity x then nan else f x.

Definition c_acos (x : float) : float :=
  if is_nan x then nan
  else if 1 <? abs x then nan
  else libm_acos x.

Definition c_pow (x y : float) : float :=
  if PrimFloat.is_zero y then 1
  else if x =? 1 then 1
  else if is_nan x || is_nan y then nan
  else if PrimFloat.is_zero x && (0 <? y) then
    (if float_is_odd_integer y then x else 0)
  else if (x <? 0) && is_finite x && is_finite y && negb (float_is_integer y) then nan
  else libm_pow x y.

(** CPython's wrapper around a C function of one argument. *)
Definition math_1 (func : float -> float) (can_overflow : bool) (x : float)
  : result float :=
  let r := func x in
  if is_nan r && negb (is_nan x) then Raise ValueError
  else if is_infinity r && is_finite x then
    Raise (if can_overflow then OverflowError else ValueError)
  else Ok r.

(** numpy's [round]: scale by a power of ten, round to an integer, scale
    back. *)
Definition float_round (x : float) (ndigits : Z) : float :=
  if (0 <=? ndigits)%Z then
    libm_rint (x * float_of_Z (10 ^ ndigits)) / float_of_Z (10 ^ ndigits)
  else
    libm_rint (x / float_of_Z (10 ^ (- ndigits))) * float_of_Z (10 ^ (- ndigits)).

#[export] Instance PyFloat_binary64 : PyFloat float := {|
  lit := float_lit;
  add := PrimFloat.add;
  sub := PrimFloat.sub;
  mul := PrimFloat.mul;
  div := PrimFloat.div;
  pow := c_pow;
  neg := PrimFloat.opp;
  math_pi := 0x1.921fb54442d18p+1;
  math_exp := math_1 c_exp true;
  math_sin := math_1 (c_trig libm_sin) false;
  math_cos := math_1 (c_trig libm_cos) false;
  math_tan := math_1 (c_trig libm_tan) false;
  math_acos := math_1 c_acos false;
  round_ndigits := float_round
|}.

End Binary64.

(** ** The floats of a row: numpy scalars or plain Python floats

    A row of a table whose columns are all numeric holds numpy [float64]
    scalars, and an operation with one of them as an operand is numpy's: it
    never raises.  A row of a table with a column that is not numeric has
    dtype [object] and holds plain Python floats: their division raises
    [ZeroDivisionError] on a zero divisor, their power raises [OverflowError]
    when the result is too large, and the power of a finite negative float by
    an exponent that is not an integer is a complex number.  The products,
    sums and differences are the same IEEE operations for both, as are the
    [math] functions, which convert their argument to a C double.  The eleven
    columns are taken to hold floats, as the specification requires of the
    table. *)

Inductive scalar : Set :=
| numpy_float64
| python_float.

(** What [Rn] and [penman_monteith] can return: a float, or (from plain floats
    only) a complex number, of which nothing but its type is ever used, as
    [round] refuses it. *)
Inductive number : Set :=
| Float (x : float)
| Complex.

(** CPython's [double_round] ([floatobject.c]): the correctly rounded
    decimal rounding behind [round(x, ndigits)] on a finite plain float. *)
Class Dtoa : Type := {
  double_round : float -> Z -> float
}.

Module Scalars.

Section Program.

Context {libm : Libm} {dtoa : Dtoa}.

(** [x / y] with a divisor that is not a non-zero constant. *)
Definition zero_divisor (k : scalar) (y : float) : bool :=
  match k with
  | numpy_float64 => false
  | python_float => (y =? 0)%float
  end.

Definition truediv (k : scalar) (x y : float) : result float :=
  if zero_divisor k y then Raise ZeroDivisionError else Ok (x / y)%float.

(** CPython's [float_pow] ([floatobject.c]).  [float_pow_complex] is its
    branch to the complex numbers and [float_pow] the function off that
    branch.  A range error of the C function is an infinite result, a
    domain error a NaN. *)
Definition float_pow_complex (iv iw : float) : bool :=
  (negb (iw =? 0) && is_finite iv && is_finite iw
   && (iv <? 0) && negb (float_is_integer iw))%float.

Definition float_pow (iv iw : float) : result float :=
  (if iw =? 0 then Ok 1
   else if is_nan iv then Ok iv
   else if is_nan iw then Ok (if iv =? 1 then 1 else iw)
   else if is_infinity iw then
     (if abs iv =? 1 then Ok 1
      else if Bool.eqb (0 <? iw) (1 <? abs iv) then Ok (abs iw)
      else Ok 0)
   else if is_infinity iv then
     (if 0 <? iw
      then Ok (if float_is_odd_integer iw then iv else abs iv)
      else Ok (if float_is_odd_integer iw then (if iv <? 0 then - 0 else 0) else 0))
   else if iv =? 0 then
     (if iw <? 0 then Raise ZeroDivisionError
      else Ok (if float_is_odd_integer iw then iv else 0))
   else
     let negate_result := (iv <? 0) && float_is_odd_integer iw in
     let iv := if iv <? 0 then - iv else iv in
     if iv =? 1 then Ok (if negate_result then - 1 else 1)
     else
       let ix := libm_pow iv iw in
       if is_nan ix then Raise ValueError
       else if is_infinity ix then Raise OverflowError
       else Ok (if negate_result then - ix else ix))%float.

(** [x ** y]. *)
Definition power (k : scalar) (x y : float) : result number :=
  match k with
  | numpy_float64 => Ok (Float (c_pow x y))
  | python_float =>
      if float_pow_complex x y then Ok Complex
      else (v <- float_pow x y ;; Ok (Float v))
  end.

(** [x ** n] for an integer literal [n]: the exponent is converted to a
    float, and an integer exponent keeps the power a float. *)
Definition power_int (k : scalar) (x : float) (n : Z) : result float :=
  match k with
  | numpy_float64 => Ok (c_pow x (float_of_Z n))
  | python_float => float_pow x (float_of_Z n)
  end.

(** [round(x, ndigits)]: numpy's on a numpy scalar, the builtin's on a plain
    float (an infinity or a NaN rounds to itself); a complex number has no
    [__round__]. *)
Definition round_float (k : scalar) (x : float) (ndigits : Z) : float :=
  match k with
  | numpy_float64 => float_round x ndigits
  | python_float => if is_finite x then double_round x ndigits else x
  end.

Definition builtin_round (k : scalar) (x : number) (ndigits : Z) : result float :=
  match x with
  | Complex => Raise TypeError
  | Float x => Ok (round_float k x ndigits)
  end.

(** The operand of a product, a sum or a difference may be complex. *)
Definition lift (f : float -> float) (x : number) : number :=
  match x with
  | Float x => Float (f x)
  | Complex => Complex
  end.

Definition calculate_VPD (k : scalar) (Tmin Tmax RHmin RHmax : float)
  : result (float * float) :=
  q_min <- truediv k (#17.27 * Tmin) (Tmin + #237.3) ;;
  x_min <- math_exp q_min ;;
  let e0T_min := #0.618 * x_min in
  q_max <- truediv k (#17.27 * Tmax) (Tmax + #237.3) ;;
  x_max <- math_exp q_max ;;
  let e0T_max := #0.618 * x_max in
  let es := (e0T_min + e0T_max) / #2 in
  let ea := ((e0T_min * RHmax) + (e0T_max * RHmin)) / #200 in
  Ok (es, ea).

Definition calculate_delta (k : scalar) (T_mean : float) : result float :=
  q <- truediv k (#17.27 * T_mean) (T_mean + #237.3) ;;
  x <- math_exp q ;;
  sq <- power_int k (T_mean + #237.3) 2 ;;
  truediv k (#4098 * #0.6108 * x) sq.

Definition Rn (k : scalar) (lat doy n ea T_min T_max altitude : float) : result number :=
  let latitude := lat * math_pi / #180 in
  c <- math_cos (#2 * math_pi * doy / #365) ;;
  let d_r := #1 + #0.033 * c in
  s <- math_sin (#2 * math_pi * doy / #365 - #1.39) ;;
  let solar_declination := #0.409 * s in
  tan_lat <- math_tan latitude ;;
  tan_decl <- math_tan solar_declination ;;
  sunset_hour_angle <- math_acos (- tan_lat * tan_decl) ;;
  sin_lat <- math_sin latitude ;;
  sin_decl <- math_sin solar_declination ;;
  cos_lat <- math_cos latitude ;;
  cos_decl <- math_cos solar_declination ;;
  sin_sha <- math_sin sunset_hour_angle ;;
  let Ra := #24 * #60 / math_pi * #0.082 * d_r
            * (sunset_hour_angle * sin_lat * sin_decl + cos_lat * cos_decl * sin_sha) in
  let N := (#24 * sunset_hour_angle) / math_pi in
  q <- truediv k (b_s * n) N ;;
  let Rs := (a_s + q) * Ra in
  let Rs0 := (#0.75 + #2e-5 * altitude) * Ra in
  let Rns := (#1 - albedo) * Rs in
  p_min <- power_int k (T_min + #273.16) 4 ;;
  p_max <- power_int k (T_max + #273) 4 ;;
  root <- power k ea #0.5 ;;
  r <- truediv k (#1.35 * Rs) Rs0 ;;
  let Rnl := lift (fun root => #4.903e-09 * ((p_min + p_max) / #2)
                               * (#0.34 - (#0.14 * root)) * (r - #0.35)) root in
  Ok (lift (fun Rnl => Rns - Rnl) Rnl).

Definition penman_monteith (k : scalar) (T delta wind_speed : float) (Rn : number)
           (air_pressure gamma ea es : float) : result number :=
  q <- truediv k #900 (T + #273) ;;
  let aerodynamic := gamma * q * wind_speed * (es - ea) in
  let denominator := delta + gamma * (#1 + (#0.34 * wind_speed)) in
  match Rn with
  | Float Rn =>
      ET0 <- truediv k ((#0.408 * delta * Rn) + aerodynamic) denominator ;;
      Ok (Float ET0)
  | Complex =>
      if zero_divisor k denominator then Raise ZeroDivisionError else Ok Complex
  end.

Definition row_ET0 (k : scalar) (row : WeatherRecord float) : result float :=
  delta <- calculate_delta k (Tmean row) ;;
  let gamma := #0.000665 * pressure row in
  '(es, ea) <- calculate_VPD k (Tmin row) (Tmax row) (RHmin row) (RHmax row) ;;
  solar_radiation <- Rn k (lat row) (doy row) (n row) ea (Tmin row) (Tmax row) (z row) ;;
  ET0 <- penman_monteith k (Tmean row) delta (uz row) solar_radiation
                         (pressure row) gamma ea es ;;
  builtin_round k ET0 1.

Fixpoint main_loop (k : scalar) (df : list (WeatherRecord float))
  : result (list (WeatherRecord float * float)) :=
  match df with
  | [] => Ok []
  | row :: rest =>
      ET0 <- row_ET0 k row ;;
      out <- main_loop k rest ;;
      Ok ((row, ET0) :: out)
  end.

Definition main (k : scalar) (read_csv : string -> result (DataFrame float))
           (file result_path : string) : outcome float :=
  let '(stdout, r) := read_data read_csv file in
  match r with
  | Raise e => {| printed := stdout; written := None; returned := Raise e |}
  | Ok df =>
      match main_loop k df with
      | Raise e => {| printed := stdout; written := None; returned := Raise e |}
      | Ok table =>
          {| printed := stdout ++ [("Results saved in " ++ dquote ++ result_path
                                     ++ dquote)%string];
             written := Some (result_path, table);
             returned := Ok 0%Z |}
      end
  end.

End Program.

End Scalars.

(** The saturation vapour pressure of the specification,
    [0.618 * exp(17.27*T / (T + 237.3))], in the arithmetic of the program. *)
Definition saturation_vapour_pressure {libm : Libm} (k : scalar) (T : float)
  : result float :=
  q <- Scalars.truediv k (#17.27 * T) (T + #237.3) ;;
  x <- math_exp q ;;
  Ok (#0.618 * x).

(** ** The formulas of the specification, over the reals *)

Section Reference.

Local Open Scope R_scope.

(** Saturation vapour pressure at temperature [T]. *)
Definition satVP (T : R) : R := 0.618 * exp (17.27 * T / (T + 237.3)).

(** Solar declination on day [doy], and the argument of [acos] in the
    sunset hour angle at latitude [lat] (degrees). *)
Definition declination (doy : R) : R := 0.409 * sin (2 * PI * doy / 365 - 1.39).

Definition sunset_argument (lat doy : R) : R :=
  - tan (lat * PI / 180) * tan (declination doy).

(** The example record of the specification (a mid-latitude summer day),
    and a record of the polar day: latitude 80 degrees at the June
    solstice. *)
Definition example_row : WeatherRecord R :=
  {| lat := 45; Tmin := 12; Tmax := 25; Tmean := 18.5; RHmin := 40; RHmax := 80;
     uz := 2; n := 9; pressure := 101.3; doy := 180; z := 100 |}.

Definition polar_row : WeatherRecord R :=
  {| lat := 80; Tmin := 2; Tmax := 8; Tmean := 5; RHmin := 60; RHmax := 90;
     uz := 3; n := 20; pressure := 101.3; doy := 172; z := 10 |}.

(** A file system in which no path resolves. *)
Definition no_such_file (file : string) : result (DataFrame R) :=
  Raise FileNotFoundError.

End Reference.

(** ** The examples in binary64

    The two example records as pandas reads them, and the C library at the
    arguments these records and the examples below reach: the values are
    those of glibc 2.36 on x86-64, which Python's [math] returns.  Off its
    table a function has no entry and the lookup gives NaN, except that the
    exponential is infinite above [0x1.62e42fefa39efp+9] (709.78...), the
    largest float whose exponential is finite. *)

Section Examples.

Local Open Scope float_scope.

Definition table_lookup (table : list (float * float)) (x : float) : float :=
  match find (fun entry => fst entry =? x) table with
  | Some entry => snd entry
  | None => nan
  end.

Definition exp_table : list (float * float) :=
  [(0x1.3fbeab40f883ap+0, 0x1.be5199d953fb7p+1);
   (0x1.a99e876c9f740p-1, 0x1.25ec4a844155ep+1);
   (0x1.a5614e2d17217p+0, 0x1.4bebf47be9da6p+2);
   (0x1.6cedeee24fa9cp-2, 0x1.6d9ae8fd36f9ap+0);
   (0x1.279a7fa59fd8fp-3, 0x1.27c00b7ee7547p+0);
   (0x1.205f83197c363p-1, 0x1.c19f1b66368d2p+0);
   ((-0x1.b202ae3da789fp+5), 0x1.a92c405865bf9p-79);
   ((-0x1.a8323be4f370fp+5), 0x1.6a7c100dcf7dcp-77);
   ((-0x1.96e9f8397db3dp+0), 0x1.a1d868fe751b7p-3);
   ((-0x1.6ae1f3d01788ap+0), 0x1.f043abb80f815p-3)]%float.

Definition sin_table : list (float * float) :=
  [(0x1.b564002624b35p+0, 0x1.fb2638894bc9ep-1);
   (0x1.921fb54442d18p-1, 0x1.6a09e667f3bccp-1);
   (0x1.9ed91ee2ff04ep-2, 0x1.9397ccde4e90fp-2);
   (0x1.01cb2e8b76da3p+1, 0x1.ce87684cdbd56p-1);
   (0x1.9222cc7cbd5a1p+0, 0x1.fffffff67291fp-1)]%float.

Definition cos_table : list (float * float) :=
  [(0x1.8c9d8531caab9p+1, (-0x1.ff86a47549d6ep-1));
   (0x1.921fb54442d18p-1, 0x1.6a09e667f3bcdp-1);
   (0x1.9ed91ee2ff04ep-2, 0x1.d68e205d36c52p-1);
   (0x1.7afceb5d16fefp+1, (-0x1.f7a8be9b0ecd5p-1))]%float.

Definition tan_table : list (float * float) :=
  [(0x1.921fb54442d18p-1, 0x1.fffffffffffffp-1);
   (0x1.9ed91ee2ff04ep-2, 0x1.b723d6ca20c96p-2);
   (0x1.657184ae74487p+0, 0x1.6af648056a133p+2);
   (0x1.a2d0e558712cap-2, 0x1.bbd86efbbc542p-2)]%float.

Definition acos_table : list (float * float) :=
  [((-0x1.b723d6ca20c95p-2), 0x1.01cb2e8b76da3p+1)]%float.

Definition rint_table : list (float * float) :=
  [(0x1.7fef6df9b766fp+5, 0x1.8000000000000p+5)]%float.

Definition pow_table : list (float * float * float) :=
  [(0x1.ff9999999999ap+7, 2, 0x1.ff3347ae147afp+15);
   (0x1.1d28f5c28f5c3p+8, 4, 0x1.8a202061d4815p+32);
   (0x1.2a00000000000p+8, 4, 0x1.d60d1b1000000p+32);
   (0x1.356ae97d6bc73p+0, 0.5, 0x1.1971bfbf94f70p+0);
   (0x1.e49999999999ap+7, 2, 0x1.caaa947ae147cp+15)]%float.

Definition pow_lookup (x y : float) : float :=
  match find (fun entry => (fst (fst entry) =? x) && (snd (fst entry) =? y)) pow_table with
  | Some entry => snd entry
  | None => nan
  end.

#[export] Instance libm_table : Libm := {|
  libm_exp := fun x => if 0x1.62e42fefa39efp+9 <? x then infinity else table_lookup exp_table x;
  libm_sin := table_lookup sin_table;
  libm_cos := table_lookup cos_table;
  libm_tan := table_lookup tan_table;
  libm_acos := table_lookup acos_table;
  libm_rint := table_lookup rint_table;
  libm_pow := pow_lookup
|}.

(** [round(4.799190898028325, 1)] on a plain float. *)
#[export] Instance dtoa_table : Dtoa := {|
  double_round := fun x ndigits =>
    if (ndigits =? 1)%Z
    then table_lookup [(0x1.3325f19492b8cp+2, 0x1.3333333333333p+2)] x
    else nan
|}.

Definition example_row_binary64 : WeatherRecord float :=
  {| lat := #45; Tmin := #12; Tmax := #25; Tmean := #18.5; RHmin := #40; RHmax := #80;
     uz := #2; n := #9; pressure := #101.3; doy := #180; z := #100 |}%py.

Definition polar_row_binary64 : WeatherRecord float :=
  {| lat := #80; Tmin := #2; Tmax := #8; Tmean := #5; RHmin := #60; RHmax := #90;
     uz := #3; n := #20; pressure := #101.3; doy := #172; z := #10 |}%py.

End Examples.

Ltac exact_arith :=
  cbv beta iota zeta delta
    [bind lit add sub mul div neg pow math_pi math_exp math_sin math_cos math_tan
     math_acos round_ndigits PyFloat_R Rlit mantissa exponent10 albedo a_s b_s].

(** * Properties *)

(** ** For every arithmetic *)

Section Generic.

Context {F : Type} {num : PyFloat F}.

(** The body of the loop wires the four components together: the slope from
    [Tmean], [gamma] from [pressure], the vapour pressures from the
    temperatures and humidities, the radiation from the [ea] just computed,
    and rounds the combination to one digit. *)
Lemma row_ET0_steps (row : WeatherRecord F) (es ea delta rn : F) :
  calculate_VPD (Tmin row) (Tmax row) (RHmin row) (RHmax row) = Ok (es, ea) ->
  calculate_delta (Tmean row) = Ok delta ->
  Rn (lat row) (doy row) (n row) ea (Tmin row) (Tmax row) (z row) = Ok rn ->
  row_ET0 row
  = Ok (round_ndigits
          (penman_monteith (Tmean row) delta (uz row) rn (pressure row)
                           (#0.000665 * pressure row) ea es) 1).
Proof.
  intros Hvpd Hdelta Hrn. unfold row_ET0.
  rewrite Hdelta. cbn [bind]. rewrite Hvpd. cbn [bind]. rewrite Hrn. reflexivity.
Qed.

(** One turn of the loop stores the value of the row beside the row and
    leaves the rest of the table to the following turns. *)
Lemma main_loop_step (row : WeatherRecord F) (ET0 : F) (rest : list (WeatherRecord F))
      (out : list (WeatherRecord F * F)) :
  row_ET0 row = Ok ET0 ->
  main_loop rest = Ok out ->
  main_loop (row :: rest) = Ok ((row, ET0) :: out).
Proof.
  intros Hrow Hrest. cbn [main_loop]. rewrite Hrow. cbn [bind]. rewrite Hrest.
  reflexivity.
Qed.

(** An exception in a row leaves the loop: the rows after it are not
    reached. *)
Lemma main_loop_raise (row : WeatherRecord F) (e : exn) (rest : list (WeatherRecord F)) :
  row_ET0 row = Raise e -> main_loop (row :: rest) = Raise e.
Proof. intros Hrow. cbn [main_loop]. rewrite Hrow. reflexivity. Qed.

(** The loop returns a table exactly when every row has a value, and then
    the table pairs each row, in order, with its value. *)
Lemma main_loop_rows (df : list (WeatherRecord F)) (out : list (WeatherRecord F * F)) :
  main_loop df = Ok out <->
  Forall2 (fun row cell => fst cell = row /\ row_ET0 row = Ok (snd cell)) df out.
Proof.
  revert out. induction df as [| row rest IH]; intros out; cbn [main_loop].
  - split.
    + intros [= <-]. constructor.
    + intros Hall. inversion Hall. reflexivity.
  - split.
    + destruct (row_ET0 row) as [v |] eqn:Hrow; cbn [bind]; [| discriminate].
      destruct (main_loop rest) as [out' |] eqn:Hrest; cbn [bind]; [| discriminate].
      intros [= <-]. constructor; [split; [reflexivity | exact Hrow] |].
      apply IH. reflexivity.
    + intros Hall. inversion Hall as [| r [r' v] l l' [Hfst Hrow] Htail].
      cbn [fst snd] in Hfst, Hrow. subst.
      rewrite Hrow. cbn [bind].
      apply IH in Htail. rewrite Htail. reflexivity.
Qed.

(** C9. [penman_monteith] does not depend on its [air_pressure] argument:
    with every other argument fixed, any two pressures give the same
    result (the pressure acts only through the [gamma] the caller computes
    from it). *)
Theorem penman_monteith_ignores_air_pressure
        (T delta wind_speed Rn gamma ea es p1 p2 : F) :
  penman_monteith T delta wind_speed Rn p1 gamma ea es
  = penman_monteith T delta wind_speed Rn p2 gamma ea es.
Proof. reflexivity. Qed.

(** When [pd.read_csv] raises [FileNotFoundError], [read_data] prints its
    message, then reads the unbound local [df]: it raises
    [UnboundLocalError] and returns nothing. *)
Lemma read_data_file_not_found (read_csv : string -> result (DataFrame F)) (file : string) :
  read_csv file = Raise FileNotFoundError ->
  read_data read_csv file
  = (["File '" ++ file ++ "' not found."]%string, Raise UnboundLocalError).
Proof. intros Hmissing. unfold read_data. rewrite Hmissing. reflexivity. Qed.

(** When [pd.read_csv] returns a table, [read_data] prints nothing and
    returns it. *)
Lemma read_data_ok (read_csv : string -> result (DataFrame F)) (file : string)
      (table : DataFrame F) :
  read_csv file = Ok table -> read_data read_csv file = ([], Ok table).
Proof. intros Hread. unfold read_data. rewrite Hread. reflexivity. Qed.

End Generic.

(** ** Over the reals: the formulas *)

Section Exact.

Local Open Scope R_scope.

(** *** Auxiliary facts *)

Lemma Rabs_le_bounds (x a : R) : Rabs x <= a -> - a <= x <= a.
Proof. unfold Rabs. destruct (Rcase_abs x); lra. Qed.

Lemma PI_bounds : 3 < PI <= 4.
Proof. pose proof PI2_3_2. pose proof PI_4. lra. Qed.

(** The literals of the program denote their decimals. *)
Lemma real_literals :
  (#17.27)%py = 17.27 /\ (#237.3)%py = 237.3 /\ (#0.618)%py = 0.618 /\
  (#0.6108)%py = 0.6108 /\ (#2e-5)%py = 2e-5 /\ (#4.903e-09)%py = 4.903e-9 /\
  (#273.16)%py = 273.16 /\ (#0.000665)%py = 0.000665 /\ (#4098)%py = 4098.
Proof. repeat split; exact_arith; lra. Qed.

Lemma Rpow_2 (x : R) : Rpow x 2 = x ^ 2.
Proof.
  unfold Rpow. rewrite ZfloorZ.
  destruct (Req_dec_T 2 2) as [_ | Hne]; [reflexivity | contradiction].
Qed.

Lemma Rpow_4 (x : R) : Rpow x 4 = x ^ 4.
Proof.
  unfold Rpow. rewrite ZfloorZ.
  destruct (Req_dec_T 4 4) as [_ | Hne]; [reflexivity | contradiction].
Qed.

(** [x ** 0.5] is the square root. *)
Lemma Rpow_half (x : R) : Rpow x 0.5 = sqrt x.
Proof.
  unfold Rpow.
  assert (Hfl : Zfloor 0.5 = 0%Z) by (apply Zfloor_eq; lra).
  rewrite Hfl.
  destruct (Req_dec_T 0 0.5) as [Heq | _]; [lra |].
  destruct (Rlt_dec 0 x) as [Hpos | Hneg].
  - replace 0.5 with (/ 2) by lra. apply Rpower_sqrt; assumption.
  - symmetry. apply sqrt_neg_0. lra.
Qed.

Lemma Racos_in_domain (x : R) : -1 <= x <= 1 -> Racos x = Ok (acos x).
Proof.
  intros [Hl Hu]. unfold Racos.
  destruct (Rle_dec (-1) x); [| contradiction].
  destruct (Rle_dec x 1); [reflexivity | contradiction].
Qed.

Lemma Racos_out_of_domain (x : R) : 1 < Rabs x -> Racos x = Raise ValueError.
Proof.
  intros Habs. unfold Racos.
  destruct (Rle_dec (-1) x) as [Hl |]; [| reflexivity].
  destruct (Rle_dec x 1) as [Hu |]; [| reflexivity].
  exfalso. assert (Rabs x <= 1) by (apply Rabs_le; lra). lra.
Qed.

(** *** Vapour pressure *)

Lemma calculate_VPD_exact (Tmin Tmax RHmin RHmax : R) :
  calculate_VPD Tmin Tmax RHmin RHmax
  = Ok ((satVP Tmin + satVP Tmax) / 2,
        (satVP Tmin * RHmax + satVP Tmax * RHmin) / 200).
Proof. unfold calculate_VPD, satVP. exact_arith. reflexivity. Qed.




End Exact.

(** ** Over the reals: net radiation and the sunset hour angle *)

Section ExactRadiation.

Local Open Scope R_scope.

(** Outside the domain of [acos], [Rn] stops at the sunset hour angle. *)
Lemma Rn_locals_polar (lat doy n ea T_min T_max altitude : R) :
  1 < Rabs (sunset_argument lat doy) ->
  Rn_locals lat doy n ea T_min T_max altitude = Raise ValueError.
Proof.
  intros Hpolar. unfold Rn_locals. exact_arith.
  unfold sunset_argument, declination in Hpolar.
  rewrite Racos_out_of_domain by exact Hpolar. reflexivity.
Qed.

(** Inside it, the local variables of [Rn] are the eleven steps of the
    specification. *)
Lemma Rn_locals_exact (lat doy n ea T_min T_max altitude : R) :
  -1 <= sunset_argument lat doy <= 1 ->
  let phi := lat * PI / 180 in
  let dr := 1 + 0.033 * cos (2 * PI * doy / 365) in
  let decl := declination doy in
  let ws := acos (sunset_argument lat doy) in
  let ra := 24 * 60 / PI * 0.082 * dr
            * (ws * sin phi * sin decl + cos phi * cos decl * sin ws) in
  let nn := 24 * ws / PI in
  let rs := (0.25 + 0.50 * n / nn) * ra in
  let rs0 := (0.75 + 2e-5 * altitude) * ra in
  let rns := (1 - 0.23) * rs in
  let rnl := 4.903e-9 * (((T_min + 273.16) ^ 4 + (T_max + 273) ^ 4) / 2)
             * (0.34 - 0.14 * sqrt ea) * (1.35 * rs / rs0 - 0.35) in
  Rn_locals lat doy n ea T_min T_max altitude
  = Ok {| latitude := phi; d_r := dr; solar_declination := decl;
          sunset_hour_angle := ws; Ra := ra; N := nn; Rs := rs; Rs0 := rs0;
          Rns := rns; Rnl := rnl |}.
Proof.
  intros Hdom. unfold Rn_locals. exact_arith.
  unfold sunset_argument, declination in *.
  rewrite Racos_in_domain by exact Hdom.
  rewrite !Rpow_4, Rpow_half.
  replace (IZR 4903 / IZR (Z.pow_pos 10 12)) with 4.903e-9 by lra.
  reflexivity.
Qed.

Lemma sunset_argument_cases (lat doy : R) :
  -1 <= sunset_argument lat doy <= 1 \/ 1 < Rabs (sunset_argument lat doy).
Proof.
  destruct (Rle_dec (Rabs (sunset_argument lat doy)) 1) as [Hdom | Hpolar].
  - left. apply Rabs_le_bounds in Hdom. lra.
  - right. lra.
Qed.

(** Between 45 degrees south and 45 degrees north the argument of [acos]
    is in its domain on every day, so [Rn] returns. *)
Lemma tan_small (x : R) : - (PI / 4) <= x <= PI / 4 -> -1 <= tan x <= 1.
Proof.
  intros [Hl Hu]. pose proof PI_bounds as [Hlo _].
  split.
  - replace (-1) with (- tan (PI / 4)) by (rewrite tan_PI4; lra).
    rewrite <- tan_neg. apply tan_incr_1; lra.
  - rewrite <- tan_PI4. apply tan_incr_1; lra.
Qed.

Lemma sunset_argument_mid_latitudes (lat doy : R) :
  -45 <= lat <= 45 -> -1 <= sunset_argument lat doy <= 1.
Proof.
  intros [Hl Hu]. pose proof PI_bounds as [Hlo Hhi].
  unfold sunset_argument, declination.
  pose proof (SIN_bound (2 * PI * doy / 365 - 1.39)) as [Hs1 Hs2].
  pose proof (@tan_small (lat * PI / 180)) as Ht1.
  pose proof (@tan_small (0.409 * sin (2 * PI * doy / 365 - 1.39))) as Ht2.
  assert (-1 <= tan (lat * PI / 180) <= 1) as [? ?] by (apply Ht1; split; nra).
  assert (-1 <= tan (0.409 * sin (2 * PI * doy / 365 - 1.39)) <= 1) as [? ?]
    by (apply Ht2; split; nra).
  split; nra.
Qed.




(** *** The polar day *)

Lemma cos_ge_quadratic (x : R) : -2 <= x <= 2 -> 1 - x ^ 2 / 2 <= cos x.
Proof.
  intros [Hl Hu].
  destruct (pre_cos_bound x 0 Hl Hu) as [Hlow _].
  unfold cos_approx, cos_term in Hlow. simpl in Hlow. lra.
Qed.

Lemma sin_ge_cubic (x : R) : 0 <= x <= 4 -> x - x ^ 3 / 6 <= sin x.
Proof.
  intros [Hl Hu].
  destruct (pre_sin_bound x 0 Hl Hu) as [Hlow _].
  unfold sin_approx, sin_term in Hlow. simpl in Hlow. lra.
Qed.

Lemma tan_ge_sin (x : R) : 0 <= x <= 1 -> sin x <= tan x.
Proof.
  intros [Hl Hu]. unfold tan.
  pose proof PI_bounds as [Hlo _].
  assert (Hc : 0 < cos x) by (apply cos_gt_0; lra).
  pose proof (COS_bound x) as [_ Hc1].
  assert (Hs : 0 <= sin x).
  { pose proof (@sin_ge_cubic x) as Hs.
    assert (x ^ 3 / 6 <= x) by nra. lra. }
  apply Rmult_le_reg_r with (cos x); [assumption |].
  unfold Rdiv. rewrite Rmult_assoc, Rinv_l by lra. nra.
Qed.

(** The declination at the June solstice (day 172) is within a tenth of
    its maximum 0.409. *)
Lemma declination_solstice : 0.37 <= declination 172 <= 0.409.
Proof.
  unfold declination.
  pose proof PI_bounds as [Hlo Hhi].
  set (a := 2 * PI * 172 / 365 - 1.39).
  assert (Hb : -0.38 <= PI / 2 - a <= 0.07) by (unfold a; lra).
  pose proof (@cos_ge_quadratic (PI / 2 - a)) as Hcos.
  rewrite cos_shift in Hcos.
  pose proof (SIN_bound a) as [_ Hone].
  assert (Hsq : (PI / 2 - a) ^ 2 <= 0.1444) by nra.
  assert (0.92 <= sin a) by (apply Rle_trans with (2 := Hcos ltac:(lra)); lra).
  lra.
Qed.

Lemma tan_declination_solstice : 0.35 <= tan (declination 172).
Proof.
  pose proof declination_solstice as [Hl Hu].
  apply Rle_trans with (sin (declination 172)).
  - pose proof (@sin_ge_cubic (declination 172)) as Hs.
    assert (Hsq : declination 172 ^ 2 <= 0.17) by nra.
    assert (declination 172 ^ 3 <= 0.07) by nra.
    lra.
  - apply tan_ge_sin. lra.
Qed.

Lemma tan_latitude_80 : 4 <= tan (80 * PI / 180).
Proof.
  pose proof PI_bounds as [Hlo Hhi].
  replace (80 * PI / 180) with (PI / 2 - PI / 18) by lra.
  unfold tan. rewrite sin_shift, cos_shift.
  assert (Hs : 0 < sin (PI / 18)) by (apply sin_gt_0; lra).
  assert (Hs' : sin (PI / 18) < PI / 18) by (apply sin_lt_x; lra).
  pose proof (@cos_ge_quadratic (PI / 18)) as Hc.
  assert (Hsq : (PI / 18) ^ 2 <= 0.05) by nra.
  assert (Hc' : 0.975 <= cos (PI / 18)) by lra.
  apply Rmult_le_reg_r with (sin (PI / 18)); [assumption |].
  unfold Rdiv. rewrite Rmult_assoc, Rinv_l by lra. lra.
Qed.

(** At latitude 80 degrees on day 172 the sun does not set:
    [tan(lat) * tan(declination)] exceeds 1. *)
Lemma polar_day_80_172 : 1 < Rabs (tan (80 * PI / 180) * tan (declination 172)).
Proof.
  pose proof tan_latitude_80. pose proof tan_declination_solstice.
  rewrite Rabs_right; nra.
Qed.

Lemma Rabs_sunset_argument (lat doy : R) :
  Rabs (sunset_argument lat doy) = Rabs (tan (lat * PI / 180) * tan (declination doy)).
Proof.
  unfold sunset_argument. rewrite <- Ropp_mult_distr_l. apply Rabs_Ropp.
Qed.

End ExactRadiation.

(** ** Over the reals: the pipeline *)

Section ExactPipeline.

Local Open Scope R_scope.

Lemma calculate_delta_exact (T_mean : R) :
  calculate_delta T_mean
  = Ok (4098 * 0.6108 * exp (17.27 * T_mean / (T_mean + 237.3)) / (T_mean + 237.3) ^ 2).
Proof. unfold calculate_delta. exact_arith. rewrite Rpow_2. reflexivity. Qed.

(** On the reals a row either has a value or stops on the domain error of
    [acos]. *)
Lemma row_ET0_cases (row : WeatherRecord R) :
  (exists v : R, row_ET0 row = Ok v) \/ row_ET0 row = Raise ValueError.
Proof.
  unfold row_ET0. rewrite calculate_delta_exact, calculate_VPD_exact. cbn [bind].
  unfold Rn.
  destruct (sunset_argument_cases (lat row) (doy row)) as [Hdom | Hpolar].
  - left.
    pose proof (Rn_locals_exact (n row) ((satVP (Tmin row) * RHmax row
                  + satVP (Tmax row) * RHmin row) / 200) (Tmin row) (Tmax row) (z row) Hdom)
      as Hex.
    cbv zeta in Hex. rewrite Hex. cbn [bind]. eexists. reflexivity.
  - right. rewrite Rn_locals_polar by exact Hpolar. reflexivity.
Qed.

Lemma row_ET0_polar (row : WeatherRecord R) :
  1 < Rabs (sunset_argument (lat row) (doy row)) -> row_ET0 row = Raise ValueError.
Proof.
  intros Hpolar. unfold row_ET0.
  rewrite calculate_delta_exact, calculate_VPD_exact. cbn [bind].
  unfold Rn. rewrite Rn_locals_polar by exact Hpolar. reflexivity.
Qed.

End ExactPipeline.

(** ** Reading the input *)

Section MissingFile.

Context {F : Type} {num : PyFloat F}.

(** C8 (as amended).  When the input path does not resolve
    ([FileNotFoundError]), [read_data] prints its message and goes on to
    [return df] with [df] never assigned; reading the unbound local raises
    [UnboundLocalError], so the function returns nothing and [main] ends
    with that exception: no row is processed, nothing is written, and the
    closing message is not printed. *)
Theorem missing_file_raises_UnboundLocalError
        (read_csv : string -> result (DataFrame F)) (file result_path : string) :
  read_csv file = Raise FileNotFoundError ->
  read_data read_csv file
  = (["File '" ++ file ++ "' not found."]%string, Raise UnboundLocalError) /\
  main read_csv file result_path
  = {| printed := ["File '" ++ file ++ "' not found."]%string;
       written := None;
       returned := Raise UnboundLocalError |}.
Proof.
  intros Hmissing.
  pose proof (read_data_file_not_found read_csv file Hmissing) as Hread.
  split; [exact Hread |].
  unfold main. rewrite Hread. reflexivity.
Qed.

End MissingFile.

Lemma missing_file_raises_UnboundLocalError_witness :
  read_data no_such_file "weather.csv"
  = (["File 'weather.csv' not found."]%string, Raise UnboundLocalError) /\
  main no_such_file "weather.csv" "result.csv"
  = {| printed := ["File 'weather.csv' not found."]%string;
       written := None;
       returned := Raise UnboundLocalError |}.
Proof.
  exact (@missing_file_raises_UnboundLocalError R PyFloat_R no_such_file
           "weather.csv" "result.csv" eq_refl).
Defined.

(** C8, as stated, fails on a missing file: [read_data] does not return its
    result variable (it returns nothing), and execution does not continue
    into the loop of [main]. *)
Lemma missing_file_read_data_does_not_return :
  no_such_file "weather.csv" = Raise FileNotFoundError /\
  fst (read_data no_such_file "weather.csv") = ["File 'weather.csv' not found."]%string /\
  ~ (exists df : DataFrame R, snd (read_data no_such_file "weather.csv") = Ok df) /\
  returned (main no_such_file "weather.csv" "result.csv") = Raise UnboundLocalError.
Proof.
  split; [reflexivity |]. split; [reflexivity |]. split; [| reflexivity].
  intros [df Hdf]. discriminate Hdf.
Qed.

(** ** In binary64: the literals and the domain error *)

Section Binary64Behaviour.

Context {libm : Libm}.

(** The decimal literals of the program are the floats Python reads: each is
    the binary64 number nearest to the decimal, as Rocq's own reading of the
    decimal gives it. *)
#[local] Set Warnings "-inexact-float".

Lemma float_literals :
  (#17.27 = 17.27%float /\ #237.3 = 237.3%float /\ #0.618 = 0.618%float /\
   #0.6108 = 0.6108%float /\ #0.033 = 0.033%float /\ #1.39 = 1.39%float /\
   #0.409 = 0.409%float /\ #0.082 = 0.082%float /\ #0.75 = 0.75%float /\
   #2e-5 = 2e-5%float /\ #0.23 = 0.23%float /\ #0.25 = 0.25%float /\
   #0.50 = 0.50%float /\ #4.903e-09 = 4.903e-09%float /\ #273.16 = 273.16%float /\
   #0.34 = 0.34%float /\ #0.14 = 0.14%float /\ #0.5 = 0.5%float /\
   #1.35 = 1.35%float /\ #0.35 = 0.35%float /\ #0.408 = 0.408%float /\
   #0.000665 = 0.000665%float /\ #4098 = 4098%float /\ #365 = 365%float)%py.
Proof. repeat split; vm_compute; reflexivity. Qed.

(** In binary64 too, [math.acos] raises outside [[-1, 1]]; and the functions
    that [Rn] calls before [acos] can raise nothing but [ValueError]. *)
Lemma binary64_acos_domain_error (x : float) :
  is_nan x = false -> (1 <? abs x)%float = true ->
  math_acos x = Raise ValueError.
Proof.
  intros Hnan Hout. cbn [math_acos PyFloat_binary64].
  unfold math_1, c_acos. rewrite Hnan, Hout. reflexivity.
Qed.

Lemma math_1_domain_error (func : float -> float) (x : float) (e : exn) :
  math_1 func false x = Raise e -> e = ValueError.
Proof.
  unfold math_1.
  destruct (is_nan (func x) && negb (is_nan x)); [intros [= <-]; reflexivity |].
  destruct (is_infinity (func x) && is_finite x); [intros [= <-]; reflexivity |].
  discriminate.
Qed.

End Binary64Behaviour.

(** ** Signs in binary64 *)

Section FloatSigns.

Local Open Scope float_scope.






(** The sign of a product follows the signs of its factors, also after
    rounding: [(- x) * y] is [- (x * y)]. *)
Lemma binary_round_aux_opp (sx : bool) (mx ex : Z) (lx : location) :
  binary_round_aux prec emax (negb sx) mx ex lx
  = SFopp (binary_round_aux prec emax sx mx ex lx).
Proof.
  unfold binary_round_aux.
  destruct (shr_fexp prec emax mx ex lx) as [mrs' e'].
  destruct (shr_fexp prec emax _ e' loc_Exact) as [mrs'' e''].
  destruct (shr_m mrs''); try reflexivity.
  destruct (Z.leb e'' (emax - prec)); reflexivity.
Qed.

Lemma mul_opp_l (x y : float) : (- x) * y = - (x * y).
Proof.
  apply Prim2SF_inj.
  rewrite FloatAxioms.opp_spec, !FloatAxioms.mul_spec, FloatAxioms.opp_spec.
  unfold SF64mul.
  destruct (Prim2SF x) as [sx | sx | | sx mx ex], (Prim2SF y) as [sy | sy | | sy my ey];
    cbn [SFopp SFmul]; try reflexivity;
    try (destruct sx, sy; reflexivity).
  rewrite <- binary_round_aux_opp. destruct sx, sy; reflexivity.
Qed.

Lemma abs_opp (x : float) : abs (- x) = abs x.
Proof.
  apply Prim2SF_inj. rewrite !FloatAxioms.abs_spec, FloatAxioms.opp_spec.
  destruct (Prim2SF x); reflexivity.
Qed.

(** A float whose absolute value compares greater than another float is no
    NaN. *)
Lemma ltb_abs_not_nan (x y : float) : (y <? abs x) = true -> is_nan x = false.
Proof.
  intros Hlt. unfold is_nan.
  rewrite FloatAxioms.ltb_spec, FloatAxioms.abs_spec in Hlt.
  rewrite FloatAxioms.eqb_spec.
  destruct (Prim2SF x) as [sx | sx | | sx mx ex].
  - reflexivity.
  - destruct sx; reflexivity.
  - exfalso. cbn [SFabs] in Hlt. unfold SFltb in Hlt.
    destruct (Prim2SF y); discriminate Hlt.
  - unfold SFeqb. cbn [SFcompare].
    destruct sx; rewrite Z.compare_refl, Pos.compare_cont_refl; reflexivity.
Qed.

End FloatSigns.

(** ** In binary64: the program on the floats of a row *)

Section OnScalars.

Context {libm : Libm} {dtoa : Dtoa}.

(** *** Division *)



Lemma truediv_inv (k : scalar) (x y v : float) :
  Scalars.truediv k x y = Ok v -> Scalars.zero_divisor k y = false /\ v = (x / y)%float.
Proof.
  unfold Scalars.truediv. destruct (Scalars.zero_divisor k y); [discriminate |].
  intros [= <-]. split; reflexivity.
Qed.

Lemma truediv_raise (k : scalar) (x y : float) (e : exn) :
  Scalars.truediv k x y = Raise e ->
  e = ZeroDivisionError /\ Scalars.zero_divisor k y = true.
Proof.
  unfold Scalars.truediv. destruct (Scalars.zero_divisor k y); [| discriminate].
  intros [= <-]. split; reflexivity.
Qed.

(** At the integer exponents of the program, 2 and 4, the power stays a
    float: [power_int] is [power]. *)
Lemma power_int_power (k : scalar) (x : float) :
  Scalars.power k x (float_of_Z 2) = (v <- Scalars.power_int k x 2 ;; Ok (Float v)) /\
  Scalars.power k x (float_of_Z 4) = (v <- Scalars.power_int k x 4 ;; Ok (Float v)).
Proof.
  destruct k; [split; reflexivity |].
  unfold Scalars.power, Scalars.power_int, Scalars.float_pow_complex.
  change (float_is_integer (float_of_Z 2)) with true.
  change (float_is_integer (float_of_Z 4)) with true.
  cbn [negb]. rewrite !Bool.andb_false_r. split; reflexivity.
Qed.

(** *** The numpy scalars

    On numpy scalars the program is the one written over the interface
    [PyFloat], at its binary64 instance. *)
Lemma calculate_VPD_numpy (Tmin Tmax RHmin RHmax : float) :
  Scalars.calculate_VPD numpy_float64 Tmin Tmax RHmin RHmax
  = calculate_VPD Tmin Tmax RHmin RHmax.
Proof. reflexivity. Qed.

Lemma calculate_delta_numpy (T_mean : float) :
  Scalars.calculate_delta numpy_float64 T_mean = calculate_delta T_mean.
Proof.
  unfold Scalars.calculate_delta, calculate_delta.
  cbn [Scalars.truediv Scalars.zero_divisor bind].
  destruct (math_exp _); reflexivity.
Qed.

Lemma Rn_numpy (lat doy n ea T_min T_max altitude : float) :
  Scalars.Rn numpy_float64 lat doy n ea T_min T_max altitude
  = (v <- Rn lat doy n ea T_min T_max altitude ;; Ok (Float v)).
Proof.
  unfold Scalars.Rn, Rn, Rn_locals.
  repeat match goal with
         | |- context [bind (?f ?x) _] =>
             match f with
             | math_cos => idtac | math_sin => idtac | math_tan => idtac
             | math_acos => idtac
             end;
             destruct (f x); cbn [bind]; [| reflexivity]
         end.
  reflexivity.
Qed.

Lemma penman_monteith_numpy (T delta wind_speed Rn air_pressure gamma ea es : float) :
  Scalars.penman_monteith numpy_float64 T delta wind_speed (Float Rn) air_pressure gamma ea es
  = Ok (Float (penman_monteith T delta wind_speed Rn air_pressure gamma ea es)).
Proof. reflexivity. Qed.

Lemma row_ET0_numpy (row : WeatherRecord float) :
  Scalars.row_ET0 numpy_float64 row = row_ET0 row.
Proof.
  unfold Scalars.row_ET0, row_ET0.
  rewrite calculate_delta_numpy.
  destruct (calculate_delta (Tmean row)) as [delta |]; cbn [bind]; [| reflexivity].
  rewrite calculate_VPD_numpy.
  destruct (calculate_VPD _ _ _ _) as [[es ea] |]; cbn [bind]; [| reflexivity].
  rewrite Rn_numpy.
  destruct (Rn _ _ _ _ _ _ _) as [rn |]; cbn [bind]; [| reflexivity].
  reflexivity.
Qed.

Lemma main_loop_numpy (df : list (WeatherRecord float)) :
  Scalars.main_loop numpy_float64 df = main_loop df.
Proof.
  induction df as [| row rest IH]; [reflexivity |].
  cbn [Scalars.main_loop main_loop]. rewrite row_ET0_numpy, IH. reflexivity.
Qed.

Lemma main_numpy (read_csv : string -> result (DataFrame float))
      (file result_path : string) :
  Scalars.main numpy_float64 read_csv file result_path = main read_csv file result_path.
Proof.
  unfold Scalars.main, main.
  destruct (read_data read_csv file) as [stdout [df |]]; [| reflexivity].
  rewrite main_loop_numpy. reflexivity.
Qed.


(** *** Vapour pressure and slope *)

Lemma calculate_VPD_satVP (k : scalar) (Tmin Tmax RHmin RHmax : float) :
  Scalars.calculate_VPD k Tmin Tmax RHmin RHmax
  = (e_min <- saturation_vapour_pressure k Tmin ;;
     e_max <- saturation_vapour_pressure k Tmax ;;
     Ok ((e_min + e_max) / #2, ((e_min * RHmax) + (e_max * RHmin)) / #200)).
Proof.
  unfold Scalars.calculate_VPD, saturation_vapour_pressure.
  destruct (Scalars.truediv k (#17.27 * Tmin) (Tmin + #237.3)) as [q_min |];
    cbn [bind]; [| reflexivity].
  destruct (math_exp q_min) as [x_min |]; cbn [bind]; [| reflexivity].
  destruct (Scalars.truediv k (#17.27 * Tmax) (Tmax + #237.3)) as [q_max |];
    cbn [bind]; [| reflexivity].
  destruct (math_exp q_max) as [x_max |]; reflexivity.
Qed.

Lemma calculate_VPD_inv (k : scalar) (Tmin Tmax RHmin RHmax es ea : float) :
  Scalars.calculate_VPD k Tmin Tmax RHmin RHmax = Ok (es, ea) ->
  exists e_min e_max : float,
    saturation_vapour_pressure k Tmin = Ok e_min /\
    saturation_vapour_pressure k Tmax = Ok e_max /\
    es = (e_min + e_max) / #2 /\
    ea = ((e_min * RHmax) + (e_max * RHmin)) / #200.
Proof.
  rewrite calculate_VPD_satVP.
  destruct (saturation_vapour_pressure k Tmin) as [e_min |]; cbn [bind]; [| discriminate].
  destruct (saturation_vapour_pressure k Tmax) as [e_max |]; cbn [bind]; [| discriminate].
  intros [= <- <-]. exists e_min, e_max. repeat split; reflexivity.
Qed.

(** C2 (as amended).  [calculate_VPD] evaluates the saturation vapour
    pressure [0.618 * exp(17.27*T / (T + 237.3))] at [Tmin], then at [Tmax],
    and ends with the exception of the first of the two that raises one.
    Whenever both have a value it returns [es], their arithmetic mean, and
    [ea = (satVP(Tmin)*RHmax + satVP(Tmax)*RHmin) / 200], all in binary64;
    and it returns nothing else. *)
Theorem vapour_pressure_formulas (k : scalar) (Tmin Tmax RHmin RHmax : float) :
  Scalars.calculate_VPD k Tmin Tmax RHmin RHmax
  = (e_min <- saturation_vapour_pressure k Tmin ;;
     e_max <- saturation_vapour_pressure k Tmax ;;
     Ok ((e_min + e_max) / #2, ((e_min * RHmax) + (e_max * RHmin)) / #200))
  /\ (forall e_min e_max : float,
         saturation_vapour_pressure k Tmin = Ok e_min ->
         saturation_vapour_pressure k Tmax = Ok e_max ->
         Scalars.calculate_VPD k Tmin Tmax RHmin RHmax
         = Ok ((e_min + e_max) / #2, ((e_min * RHmax) + (e_max * RHmin)) / #200))
  /\ (forall es ea : float,
         Scalars.calculate_VPD k Tmin Tmax RHmin RHmax = Ok (es, ea) ->
         exists e_min e_max : float,
           saturation_vapour_pressure k Tmin = Ok e_min /\
           saturation_vapour_pressure k Tmax = Ok e_max /\
           es = (e_min + e_max) / #2 /\
           ea = ((e_min * RHmax) + (e_max * RHmin)) / #200).
Proof.
  split; [apply calculate_VPD_satVP |]. split.
  - intros e_min e_max Hmin Hmax. rewrite calculate_VPD_satVP, Hmin, Hmax. reflexivity.
  - intros es ea. apply calculate_VPD_inv.
Qed.

(** C5 (as amended).  At [Tmean = -237.3] the sum [T_mean + 237.3] is zero.
    On a numpy scalar [calculate_delta] raises nothing and returns a value
    that is not finite, a NaN: the quotient in the exponent is minus
    infinity, its exponential is zero, and the final division is zero by
    zero.  On a plain Python float the first division raises
    [ZeroDivisionError] and nothing is returned.  Both hold whatever the C
    library computes. *)
Theorem calculate_delta_at_singular_temperature :
  Scalars.calculate_delta numpy_float64 (- #237.3)%py = Ok nan /\
  is_finite nan = false /\
  Scalars.calculate_delta python_float (- #237.3)%py = Raise ZeroDivisionError.
Proof. repeat split; vm_compute; reflexivity. Qed.








(** *** The loop *)


Lemma main_loop_raises (k : scalar) (row : WeatherRecord float) (e : exn)
      (df : list (WeatherRecord float)) :
  Scalars.row_ET0 k row = Raise e -> In row df ->
  exists e' : exn, Scalars.main_loop k df = Raise e'.
Proof.
  intros Hrow Hin. induction df as [| r rest IH]; [contradiction |].
  cbn [Scalars.main_loop].
  destruct (Scalars.row_ET0 k r) as [v |] eqn:Hr; cbn [bind].
  - destruct Hin as [-> | Hin]; [rewrite Hrow in Hr; discriminate |].
    destruct (IH Hin) as [e' He']. rewrite He'. exists e'. reflexivity.
  - eexists. reflexivity.
Qed.


(** *** The sunset hour angle *)

Lemma Rn_polar (k : scalar) (lat doy n ea T_min T_max altitude s tan_lat tan_decl : float) :
  math_sin (#2 * math_pi * doy / #365 - #1.39) = Ok s ->
  math_tan (lat * math_pi / #180) = Ok tan_lat ->
  math_tan (#0.409 * s) = Ok tan_decl ->
  (1 <? abs (tan_lat * tan_decl))%float = true ->
  Scalars.Rn k lat doy n ea T_min T_max altitude = Raise ValueError.
Proof.
  intros Hsin Htan_lat Htan_decl Hout. unfold Scalars.Rn.
  destruct (math_cos (#2 * math_pi * doy / #365)) as [c | e] eqn:Hcos; cbn [bind].
  - rewrite Hsin. cbn [bind]. rewrite Htan_lat. cbn [bind].
    rewrite Htan_decl. cbn [bind].
    assert (Habs : abs (- tan_lat * tan_decl) = abs (tan_lat * tan_decl)).
    { cbn [neg mul PyFloat_binary64]. rewrite mul_opp_l. apply abs_opp. }
    rewrite <- Habs in Hout.
    rewrite (binary64_acos_domain_error (ltb_abs_not_nan Hout) Hout). reflexivity.
  - apply math_1_domain_error in Hcos. rewrite Hcos. reflexivity.
Qed.

(** C4 (as amended).  For every input with
    [|tan(lat in radians) * tan(solar declination)| > 1], numpy scalars or
    plain floats, the sunset hour angle step raises [ValueError] (math
    domain error) and [Rn] returns no value, NaN or other.  The record gets
    no ET0: its computation ends with an exception, which is that
    [ValueError] whenever the slope and the vapour pressures have been
    computed.  The loop over any table that holds the record ends with an
    exception, and [main] with it, without writing the output. *)
Theorem polar_input_raises_ValueError
        (k : scalar) (row : WeatherRecord float) (s tan_lat tan_decl : float)
        (df : list (WeatherRecord float))
        (read_csv : string -> result (DataFrame float)) (file result_path : string) :
  math_sin (#2 * math_pi * doy row / #365 - #1.39) = Ok s ->
  math_tan (lat row * math_pi / #180) = Ok tan_lat ->
  math_tan (#0.409 * s) = Ok tan_decl ->
  (1 <? abs (tan_lat * tan_decl))%float = true ->
  (forall n ea T_min T_max altitude : float,
      Scalars.Rn k (lat row) (doy row) n ea T_min T_max altitude = Raise ValueError) /\
  (exists e : exn,
      Scalars.row_ET0 k row = Raise e /\
      (forall delta es ea : float,
          Scalars.calculate_delta k (Tmean row) = Ok delta ->
          Scalars.calculate_VPD k (Tmin row) (Tmax row) (RHmin row) (RHmax row)
          = Ok (es, ea) ->
          e = ValueError)) /\
  (In row df -> exists e : exn, Scalars.main_loop k df = Raise e) /\
  (In row df -> read_csv file = Ok df ->
   exists e : exn,
     Scalars.main k read_csv file result_path
     = {| printed := []; written := None; returned := Raise e |}).
Proof.
  intros Hsin Htan_lat Htan_decl Hout.
  assert (HRn : forall n ea T_min T_max altitude : float,
             Scalars.Rn k (lat row) (doy row) n ea T_min T_max altitude = Raise ValueError)
    by (intros; apply Rn_polar with s tan_lat tan_decl; assumption).
  assert (Hrow : exists e : exn,
             Scalars.row_ET0 k row = Raise e /\
             (forall delta es ea : float,
                 Scalars.calculate_delta k (Tmean row) = Ok delta ->
                 Scalars.calculate_VPD k (Tmin row) (Tmax row) (RHmin row) (RHmax row)
                 = Ok (es, ea) ->
                 e = ValueError)).
  { unfold Scalars.row_ET0.
    destruct (Scalars.calculate_delta k (Tmean row)) as [delta |]; cbn [bind].
    - destruct (Scalars.calculate_VPD k (Tmin row) (Tmax row) (RHmin row) (RHmax row))
        as [[es ea] |]; cbn [bind].
      + rewrite HRn. cbn [bind]. exists ValueError. split; reflexivity.
      + eexists. split; [reflexivity |]. intros delta' es ea _ Hvpd. discriminate Hvpd.
    - eexists. split; [reflexivity |]. intros delta es ea Hdelta. discriminate Hdelta. }
  destruct Hrow as [e [Hrow He]].
  split; [exact HRn |]. split; [exists e; split; assumption |]. split.
  - intros Hin. exact (main_loop_raises k row df Hrow Hin).
  - intros Hin Hread. destruct (main_loop_raises k row df Hrow Hin) as [e' He'].
    exists e'. unfold Scalars.main.
    rewrite (read_data_ok read_csv file Hread), He'. reflexivity.
Qed.

End OnScalars.

(** ** The examples, evaluated *)

Section Evaluated.

Local Open Scope float_scope.



(** C2 on the example record. *)
Lemma vapour_pressure_formulas_witness :
  Scalars.calculate_VPD numpy_float64 (#12) (#25) (#40) (#80)
  = Ok ((0x1.6b49f19b4683cp+0 + 0x1.9a41561e46ee3p+1) / #2,
        ((0x1.6b49f19b4683cp+0 * #80) + (0x1.9a41561e46ee3p+1 * #40)) / #200)%py.
Proof.
  apply (proj1 (proj2 (@vapour_pressure_formulas libm_table numpy_float64
                         (#12) (#25) (#40) (#80))%py));
    vm_compute; reflexivity.
Defined.

(** C2, as stated, fails just below -237.3, where the exponent is about
    41000 and [math.exp] raises [OverflowError], and on plain floats at
    -237.3, where the division raises: nothing is returned. *)
Lemma calculate_VPD_returns_nothing :
  (Scalars.calculate_VPD numpy_float64 (- #237.4) (#25) (#40) (#80) = Raise OverflowError /\
   Scalars.calculate_VPD python_float (- #237.4) (#25) (#40) (#80) = Raise OverflowError /\
   Scalars.calculate_VPD python_float (- #237.3) (#25) (#40) (#80)
   = Raise ZeroDivisionError)%py.
Proof. repeat split; vm_compute; reflexivity. Qed.

(** C4 on the record of the polar day, after a record that has a value. *)
Lemma polar_input_raises_ValueError_witness :
  (Scalars.row_ET0 numpy_float64 polar_row_binary64 = Raise ValueError /\
   exists e : exn,
     Scalars.main numpy_float64 (fun _ => Ok [example_row_binary64; polar_row_binary64])
                  "weather.csv" "result.csv"
     = {| printed := []; written := None; returned := Raise e |}) /\
  (Scalars.row_ET0 python_float polar_row_binary64 = Raise ValueError /\
   exists e : exn,
     Scalars.main python_float (fun _ => Ok [example_row_binary64; polar_row_binary64])
                  "weather.csv" "result.csv"
     = {| printed := []; written := None; returned := Raise e |}).
Proof.
  assert (Hsin : (math_sin (#2 * math_pi * doy polar_row_binary64 / #365 - #1.39)
                  = Ok 0x1.fffffff67291fp-1)%py) by (vm_compute; reflexivity).
  assert (Htan_lat : (math_tan (lat polar_row_binary64 * math_pi / #180)
                      = Ok 0x1.6af648056a133p+2)%py) by (vm_compute; reflexivity).
  assert (Htan_decl : (math_tan (#0.409 * 0x1.fffffff67291fp-1)
                       = Ok 0x1.bbd86efbbc542p-2)%py) by (vm_compute; reflexivity).
  assert (Hout : (1 <? abs (0x1.6af648056a133p+2 * 0x1.bbd86efbbc542p-2)) = true)
    by (vm_compute; reflexivity).
  split.
  - destruct (@polar_input_raises_ValueError libm_table dtoa_table numpy_float64
                polar_row_binary64 _ _ _ [example_row_binary64; polar_row_binary64]
                (fun _ => Ok [example_row_binary64; polar_row_binary64])
                "weather.csv" "result.csv" Hsin Htan_lat Htan_decl Hout)
      as [_ [[e [Hrow He]] [_ Hmain]]].
    split.
    + rewrite Hrow. f_equal.
      apply (He 0x1.f2ccc954d456fp-5 0x1.cca3c38e9e3e2p-1 0x1.4b37457e8eda0p-1);
        vm_compute; reflexivity.
    + apply Hmain; [right; left; reflexivity | reflexivity].
  - destruct (@polar_input_raises_ValueError libm_table dtoa_table python_float
                polar_row_binary64 _ _ _ [example_row_binary64; polar_row_binary64]
                (fun _ => Ok [example_row_binary64; polar_row_binary64])
                "weather.csv" "result.csv" Hsin Htan_lat Htan_decl Hout)
      as [_ [[e [Hrow He]] [_ Hmain]]].
    split.
    + rewrite Hrow. f_equal.
      apply (He 0x1.f2ccc954d456fp-5 0x1.cca3c38e9e3e2p-1 0x1.4b37457e8eda0p-1);
        vm_compute; reflexivity.
    + apply Hmain; [right; left; reflexivity | reflexivity].
Defined.

(** C4, as stated, fails at latitude 80 degrees on day 172: the condition
    holds ([tan(lat) * tan(declination)] is about 2.46), [math.acos] raises
    [ValueError], and neither [Rn] nor the record yields any value, NaN or
    other; the run ends with the exception and writes nothing. *)
Lemma polar_day_yields_no_value :
  (math_tan (#80 * math_pi / #180) = Ok 0x1.6af648056a133p+2 /\
   math_tan (#0.409 * 0x1.fffffff67291fp-1) = Ok 0x1.bbd86efbbc542p-2 /\
   (1 <? abs (0x1.6af648056a133p+2 * 0x1.bbd86efbbc542p-2)) = true /\
   math_acos (- 0x1.6af648056a133p+2 * 0x1.bbd86efbbc542p-2) = Raise ValueError /\
   (forall k : scalar,
       Scalars.Rn k (#80) (#172) (#20) 0x1.4b37457e8eda0p-1 (#2) (#8) (#10)
       = Raise ValueError /\
       Scalars.row_ET0 k polar_row_binary64 = Raise ValueError /\
       Scalars.main k (fun _ => Ok [polar_row_binary64]) "weather.csv" "result.csv"
       = {| printed := []; written := None; returned := Raise ValueError |}))%py.
Proof.
  repeat split; try destruct k; vm_compute; reflexivity.
Qed.

(** C5, as stated, fails on a plain Python float: the call signals an error
    and returns no value. *)
Lemma singular_temperature_raises_on_plain_float :
  Scalars.calculate_delta python_float (- #237.3)%py = Raise ZeroDivisionError /\
  ~ (exists delta : float,
        Scalars.calculate_delta python_float (- #237.3)%py = Ok delta).
Proof.
  split; [vm_compute; reflexivity |].
  intros [delta Hdelta]. vm_compute in Hdelta. discriminate Hdelta.
Qed.







End Evaluated.

(** * More of the program *)

(** ** Reading the input and the loop, for every arithmetic *)

Section GenericCoverage.

Context {F : Type} {num : PyFloat F}.

Lemma read_data_returns_inv
      (read_csv : string -> result (DataFrame F)) (file : string)
      (stdout : list string) (table : DataFrame F) :
  read_data read_csv file = (stdout, Ok table) ->
  read_csv file = Ok table /\ stdout = [].
Proof.
  unfold read_data.
  destruct (read_csv file) as [t | e]; cbn [bind].
  - intros [= <- <-]. split; reflexivity.
  - destruct e; cbn [bind]; intros H; inversion H.
Qed.

(** X1. [read_data] returns a table exactly when [pd.read_csv] returned that
    table, and then it has printed nothing: it never makes up a table after
    a failed read. *)
Theorem read_data_returns_iff
        (read_csv : string -> result (DataFrame F)) (file : string)
        (stdout : list string) (table : DataFrame F) :
  read_data read_csv file = (stdout, Ok table)
  <-> (read_csv file = Ok table /\ stdout = []).
Proof.
  split.
  - apply read_data_returns_inv.
  - intros [Hread ->]. apply read_data_ok. exact Hread.
Qed.

(** X2. When [pd.read_csv] raises another [IOError] (an [OSError] that is
    not [FileNotFoundError]), [read_data] prints "An error occurred while
    reading the file: " followed by the error, then raises
    [UnboundLocalError] at [return df]; [main] ends with that exception and
    writes nothing. *)
Theorem read_data_io_error
        (read_csv : string -> result (DataFrame F)) (file result_path e : string) :
  read_csv file = Raise (IOError e) ->
  read_data read_csv file
  = (["An error occurred while reading the file: " ++ e]%string, Raise UnboundLocalError) /\
  main read_csv file result_path
  = {| printed := ["An error occurred while reading the file: " ++ e]%string;
       written := None;
       returned := Raise UnboundLocalError |}.
Proof.
  intros Hio.
  assert (Hread : read_data read_csv file
                  = (["An error occurred while reading the file: " ++ e]%string,
                     Raise UnboundLocalError))
    by (unfold read_data; rewrite Hio; reflexivity).
  split; [exact Hread |]. unfold main. rewrite Hread. reflexivity.
Qed.

(** X3. An exception of [pd.read_csv] that neither [except] clause catches
    goes through [read_data] and [main] unchanged: nothing is printed,
    nothing is written. *)
Theorem read_data_uncaught_exception
        (read_csv : string -> result (DataFrame F)) (file result_path : string) (e : exn) :
  read_csv file = Raise e ->
  e <> FileNotFoundError ->
  (forall msg, e <> IOError msg) ->
  read_data read_csv file = ([], Raise e) /\
  main read_csv file result_path
  = {| printed := []; written := None; returned := Raise e |}.
Proof.
  intros Hraise Hfnf Hio.
  assert (Hread : read_data read_csv file = ([], Raise e)).
  { unfold read_data. rewrite Hraise.
    destruct e; try reflexivity.
    - contradiction.
    - exfalso. apply (Hio msg). reflexivity. }
  split; [exact Hread |]. unfold main. rewrite Hread. reflexivity.
Qed.

Lemma main_loop_map_fst
      (df : list (WeatherRecord F)) (out : list (WeatherRecord F * F)) :
  main_loop df = Ok out -> map fst out = df.
Proof.
  intros Hloop. apply main_loop_rows in Hloop.
  induction Hloop as [| row cell df' out' [Hfst _] _ IH]; [reflexivity |].
  cbn [map]. rewrite Hfst, IH. reflexivity.
Qed.

(** X4. The loop over a table made of two parts is the loop over the first
    part followed by the loop over the second: the rows are handled
    independently and in order, and a failure in the first part hides the
    second. *)
Theorem main_loop_app (df1 df2 : list (WeatherRecord F)) :
  main_loop (df1 ++ df2)
  = (out1 <- main_loop df1 ;; out2 <- main_loop df2 ;; Ok (out1 ++ out2)).
Proof.
  induction df1 as [| row rest IH]; cbn [app main_loop].
  - cbn [bind]. destruct (main_loop df2); reflexivity.
  - destruct (row_ET0 row) as [v |]; cbn [bind]; [| reflexivity].
    rewrite IH.
    destruct (main_loop rest) as [out1 |]; cbn [bind]; [| reflexivity].
    destruct (main_loop df2); reflexivity.
Qed.

(** X5. When the loop returns, the table it returns has the rows of the
    input, unmodified and in the same order, each with one value added. *)
Theorem main_loop_preserves_rows
        (df : list (WeatherRecord F)) (out : list (WeatherRecord F * F)) :
  main_loop df = Ok out ->
  map fst out = df /\ List.length out = List.length df.
Proof.
  intros Hloop. apply main_loop_map_fst in Hloop.
  split; [exact Hloop |].
  subst df. symmetry. apply List.length_map.
Qed.

(** X6. The loop stops at the first row that raises: when the rows before
    it have values, the loop raises the exception of that row, whatever
    rows follow. *)
Theorem main_loop_first_failure
        (before : list (WeatherRecord F)) (row : WeatherRecord F) (e : exn)
        (after : list (WeatherRecord F)) :
  Forall (fun r => exists v, row_ET0 r = Ok v) before ->
  row_ET0 row = Raise e ->
  main_loop (before ++ row :: after) = Raise e.
Proof.
  intros Hbefore Hrow. induction Hbefore as [| r rest [v Hv] _ IH]; cbn [app main_loop].
  - rewrite Hrow. reflexivity.
  - rewrite Hv. cbn [bind]. rewrite IH. reflexivity.
Qed.

(** X7. [main] writes all or nothing.  If it writes, it writes to the
    result path the table the loop returned for the table read, and returns
    0; otherwise it ends with an exception. *)
Theorem main_writes_all_or_nothing
        (read_csv : string -> result (DataFrame F)) (file result_path : string) :
  match written (main read_csv file result_path) with
  | Some (path, table) =>
      path = result_path /\
      returned (main read_csv file result_path) = Ok 0%Z /\
      exists df, read_csv file = Ok df /\ main_loop df = Ok table /\ map fst table = df
  | None => exists e, returned (main read_csv file result_path) = Raise e
  end.
Proof.
  unfold main.
  destruct (read_data read_csv file) as [stdout r] eqn:Hread.
  destruct r as [df | e]; cbn [written returned]; [| eexists; reflexivity].
  apply read_data_returns_inv in Hread. destruct Hread as [Hread _].
  destruct (main_loop df) as [table | e] eqn:Hloop; cbn [written returned];
    [| eexists; reflexivity].
  split; [reflexivity |]. split; [reflexivity |].
  exists df. split; [exact Hread |]. split; [exact Hloop |].
  apply main_loop_map_fst. exact Hloop.
Qed.

(** X8. On a table with no rows, [main] evaluates no formula: it writes the
    empty table to the result path, prints the closing message and returns
    0. *)
Theorem main_empty_table
        (read_csv : string -> result (DataFrame F)) (file result_path : string) :
  read_csv file = Ok [] ->
  main read_csv file result_path
  = {| printed := [("Results saved in " ++ dquote ++ result_path ++ dquote)%string];
       written := Some (result_path, []);
       returned := Ok 0%Z |}.
Proof.
  intros Hread. unfold main. rewrite (read_data_ok read_csv file Hread). reflexivity.
Qed.

End GenericCoverage.

(** ** The formulas over the reals *)

Section ExactCoverage.

Local Open Scope R_scope.

Lemma row_ET0_defined_mid_latitudes (row : WeatherRecord R) :
  -45 <= lat row <= 45 -> exists v : R, row_ET0 row = Ok v.
Proof.
  intros Hlat.
  destruct (row_ET0_cases row) as [Hok | Hraise]; [exact Hok |].
  pose proof (sunset_argument_mid_latitudes (doy row) Hlat) as Hdom.
  exfalso. revert Hraise. unfold row_ET0.
  rewrite calculate_delta_exact, calculate_VPD_exact. cbn [bind]. unfold Rn.
  pose proof (Rn_locals_exact (n row) ((satVP (Tmin row) * RHmax row
                + satVP (Tmax row) * RHmin row) / 200) (Tmin row) (Tmax row) (z row) Hdom)
    as Hex.
  cbv zeta in Hex. rewrite Hex. cbn [bind]. discriminate.
Qed.











(** Witnesses of the properties of the input and of the loop. *)
Lemma read_data_io_error_witness :
  read_data (fun _ => Raise (IOError "Permission denied") : result (DataFrame R))
            "weather.csv"
  = (["An error occurred while reading the file: Permission denied"]%string,
     Raise UnboundLocalError) /\
  main (fun _ => Raise (IOError "Permission denied") : result (DataFrame R))
       "weather.csv" "result.csv"
  = {| printed := ["An error occurred while reading the file: Permission denied"]%string;
       written := None;
       returned := Raise UnboundLocalError |}.
Proof.
  exact (@read_data_io_error R PyFloat_R (fun _ => Raise (IOError "Permission denied"))
           "weather.csv" "result.csv" "Permission denied" eq_refl).
Defined.

Lemma read_data_uncaught_exception_witness :
  read_data (fun _ => Raise (OtherError "EmptyDataError") : result (DataFrame R))
            "weather.csv"
  = ([], Raise (OtherError "EmptyDataError")) /\
  main (fun _ => Raise (OtherError "EmptyDataError") : result (DataFrame R))
       "weather.csv" "result.csv"
  = {| printed := []; written := None; returned := Raise (OtherError "EmptyDataError") |}.
Proof.
  apply (@read_data_uncaught_exception R PyFloat_R
           (fun _ => Raise (OtherError "EmptyDataError"))
           "weather.csv" "result.csv" (OtherError "EmptyDataError") eq_refl);
    [discriminate | intros msg; discriminate].
Defined.

Lemma main_loop_preserves_rows_witness :
  exists out : list (WeatherRecord R * R),
    main_loop [example_row] = Ok out /\
    map fst out = [example_row] /\ List.length out = 1%nat.
Proof.
  assert (Hlat : -45 <= lat example_row <= 45) by (cbn [lat example_row]; lra).
  destruct (row_ET0_defined_mid_latitudes example_row Hlat) as [v Hv].
  assert (Hloop : main_loop [example_row] = Ok [(example_row, v)])
    by (apply main_loop_step; [exact Hv | reflexivity]).
  exists [(example_row, v)]. split; [exact Hloop |].
  exact (@main_loop_preserves_rows R PyFloat_R _ _ Hloop).
Defined.

Lemma main_loop_first_failure_witness :
  main_loop ([example_row] ++ polar_row :: [example_row]) = Raise ValueError.
Proof.
  assert (Hlat : -45 <= lat example_row <= 45) by (cbn [lat example_row]; lra).
  assert (Hpolar : 1 < Rabs (sunset_argument (lat polar_row) (doy polar_row)))
    by (rewrite Rabs_sunset_argument; exact polar_day_80_172).
  exact (@main_loop_first_failure R PyFloat_R [example_row] polar_row ValueError
           [example_row]
           (Forall_cons _ (row_ET0_defined_mid_latitudes example_row Hlat) (Forall_nil _))
           (row_ET0_polar polar_row Hpolar)).
Defined.

Lemma main_empty_table_witness :
  main (fun _ => Ok [] : result (DataFrame R)) "weather.csv" "result.csv"
  = {| printed := [("Results saved in " ++ dquote ++ "result.csv" ++ dquote)%string];
       written := Some ("result.csv"%string, []);
       returned := Ok 0%Z |}.
Proof.
  exact (@main_empty_table R PyFloat_R (fun _ => Ok []) "weather.csv" "result.csv" eq_refl).
Defined.

End ExactCoverage.

(** ** In binary64: errors, missing values and the singular temperature *)

Section Binary64Coverage.

Context {libm : Libm}.

Local Open Scope float_scope.

(** A NaN operand makes the result of an arithmetic operation NaN. *)
Lemma add_nan_l (x : float) : nan + x = nan.
Proof.
  apply Prim2SF_inj. rewrite FloatAxioms.add_spec. change (Prim2SF nan) with S754_nan.
  destruct (Prim2SF x); reflexivity.
Qed.

Lemma add_nan_r (x : float) : x + nan = nan.
Proof.
  apply Prim2SF_inj. rewrite FloatAxioms.add_spec. change (Prim2SF nan) with S754_nan.
  destruct (Prim2SF x); reflexivity.
Qed.

Lemma sub_nan_l (x : float) : nan - x = nan.
Proof.
  apply Prim2SF_inj. rewrite FloatAxioms.sub_spec. change (Prim2SF nan) with S754_nan.
  destruct (Prim2SF x); reflexivity.
Qed.

Lemma sub_nan_r (x : float) : x - nan = nan.
Proof.
  apply Prim2SF_inj. rewrite FloatAxioms.sub_spec. change (Prim2SF nan) with S754_nan.
  destruct (Prim2SF x); reflexivity.
Qed.

Lemma mul_nan_l (x : float) : nan * x = nan.
Proof.
  apply Prim2SF_inj. rewrite FloatAxioms.mul_spec. change (Prim2SF nan) with S754_nan.
  destruct (Prim2SF x); reflexivity.
Qed.

Lemma mul_nan_r (x : float) : x * nan = nan.
Proof.
  apply Prim2SF_inj. rewrite FloatAxioms.mul_spec. change (Prim2SF nan) with S754_nan.
  destruct (Prim2SF x); reflexivity.
Qed.

Lemma div_nan_l (x : float) : nan / x = nan.
Proof.
  apply Prim2SF_inj. rewrite FloatAxioms.div_spec. change (Prim2SF nan) with S754_nan.
  destruct (Prim2SF x); reflexivity.
Qed.

Lemma div_nan_r (x : float) : x / nan = nan.
Proof.
  apply Prim2SF_inj. rewrite FloatAxioms.div_spec. change (Prim2SF nan) with S754_nan.
  destruct (Prim2SF x); reflexivity.
Qed.

Create Rewrite HintDb nan_arith.

#[local] Hint Rewrite add_nan_l add_nan_r sub_nan_l sub_nan_r
  mul_nan_l mul_nan_r div_nan_l div_nan_r : nan_arith.

Lemma penman_monteith_nan_delta (T wind_speed Rn air_pressure gamma ea es : float) :
  penman_monteith T nan wind_speed Rn air_pressure gamma ea es = nan.
Proof.
  unfold penman_monteith. cbn [add sub mul div PyFloat_binary64].
  autorewrite with nan_arith. reflexivity.
Qed.


Lemma math_exp_nan : math_exp nan = Ok nan.
Proof. vm_compute. reflexivity. Qed.

(** X20. A missing value (pandas reads an empty cell as NaN) raises
    nothing in the vapour pressure and slope functions:
    [calculate_delta] of NaN is NaN, and with a NaN temperature
    [calculate_VPD] returns NaN for both [es] and [ea] whenever the
    exponential at the other temperature returns. *)
Theorem missing_temperature_gives_nan (T RHmin RHmax : float) :
  calculate_delta nan = Ok nan /\
  calculate_VPD nan T RHmin RHmax
  = (x <- math_exp ((#17.27 * T) / (T + #237.3)) ;; Ok (nan, nan))%py /\
  calculate_VPD T nan RHmin RHmax
  = (x <- math_exp ((#17.27 * T) / (T + #237.3)) ;; Ok (nan, nan))%py.
Proof.
  split; [vm_compute; reflexivity |].
  assert (Harg : ((#17.27 * nan) / (nan + #237.3))%py = nan)
    by (cbn [add sub mul div PyFloat_binary64]; autorewrite with nan_arith; reflexivity).
  unfold calculate_VPD. rewrite Harg, math_exp_nan.
  split; cbn [bind];
    destruct (math_exp ((#17.27 * T) / (T + #237.3))%py) as [x |];
    cbn [bind]; try reflexivity;
    cbn [add sub mul div PyFloat_binary64]; autorewrite with nan_arith; reflexivity.
Qed.

Lemma math_1_math_error (func : float -> float) (can_overflow : bool) (x : float) :
  raises_only_math_errors (math_1 func can_overflow x).
Proof.
  unfold math_1, raises_only_math_errors.
  destruct (is_nan (func x) && negb (is_nan x)); [left; reflexivity |].
  destruct (is_infinity (func x) && is_finite x); [| exact I].
  destruct can_overflow; [right | left]; reflexivity.
Qed.

Lemma bind_math_error {A B : Type} (m : result A) (k : A -> result B) :
  raises_only_math_errors m ->
  (forall a, raises_only_math_errors (k a)) ->
  raises_only_math_errors (bind m k).
Proof.
  intros Hm Hk. destruct m as [a | e]; cbn [bind]; [apply Hk | exact Hm].
Qed.

Lemma row_ET0_math_error (row : WeatherRecord float) :
  raises_only_math_errors (row_ET0 row).
Proof.
  unfold row_ET0, calculate_delta, calculate_VPD, Rn, Rn_locals.
  cbn [math_exp math_sin math_cos math_tan math_acos PyFloat_binary64].
  repeat first
    [ apply bind_math_error; [apply math_1_math_error | intros ?]
    | apply bind_math_error; [| intros ?]
    | match goal with p : (_ * _)%type |- _ => destruct p end
    | exact I ].
Qed.

End Binary64Coverage.

(** ** Exceptions and singular temperatures, by the floats of the row *)

Section ScalarsCoverage.

Context {libm : Libm} {dtoa : Dtoa}.

(** X18. The [es] that [calculate_VPD] returns, and the exception it ends
    with if it returns nothing, do not depend on the relative humidities. *)
Theorem es_ignores_humidity (k : scalar) (Tmin Tmax RHmin RHmax RHmin' RHmax' : float) :
  (r <- Scalars.calculate_VPD k Tmin Tmax RHmin RHmax ;; Ok (fst r))
  = (r <- Scalars.calculate_VPD k Tmin Tmax RHmin' RHmax' ;; Ok (fst r)).
Proof.
  rewrite !calculate_VPD_satVP.
  destruct (saturation_vapour_pressure k Tmin) as [e_min |]; cbn [bind]; [| reflexivity].
  destruct (saturation_vapour_pressure k Tmax) as [e_max |]; reflexivity.
Qed.

(** X21. At [Tmin = -237.3] on numpy scalars [calculate_VPD] raises nothing
    and returns no NaN on account of that temperature: the exponent is
    minus infinity, so the saturation pressure at [Tmin] counts as 0 in
    [es] and in [ea].  On plain floats the division by [Tmin + 237.3]
    raises [ZeroDivisionError]. *)
Theorem calculate_VPD_at_singular_Tmin (Tmax RHmin RHmax : float) :
  Scalars.calculate_VPD numpy_float64 (- #237.3)%py Tmax RHmin RHmax
  = (x <- math_exp ((#17.27 * Tmax) / (Tmax + #237.3)) ;;
     Ok ((#0 + #0.618 * x) / #2, ((#0 * RHmax) + (#0.618 * x * RHmin)) / #200)) /\
  Scalars.calculate_VPD python_float (- #237.3)%py Tmax RHmin RHmax
  = Raise ZeroDivisionError.
Proof.
  split; [| vm_compute; reflexivity].
  assert (Hexp : math_exp ((#17.27 * - #237.3) / (- #237.3 + #237.3)) = Ok 0%float)
    by (vm_compute; reflexivity).
  rewrite calculate_VPD_numpy. unfold calculate_VPD. rewrite Hexp. cbn [bind].
  assert (Hzero : #0.618 * 0%float = #0) by (vm_compute; reflexivity).
  rewrite Hzero. reflexivity.
Qed.

Lemma bind_plain_float_error {A B : Type} (m : result A) (f : A -> result B) :
  raises_only_plain_float_errors m ->
  (forall a, raises_only_plain_float_errors (f a)) ->
  raises_only_plain_float_errors (bind m f).
Proof.
  intros Hm Hf. destruct m as [a | e]; cbn [bind]; [apply Hf | exact Hm].
Qed.

Lemma math_1_plain_float_error (func : float -> float) (can_overflow : bool) (x : float) :
  raises_only_plain_float_errors (math_1 func can_overflow x).
Proof.
  unfold math_1, raises_only_plain_float_errors.
  destruct (is_nan (func x) && negb (is_nan x)); [left; reflexivity |].
  destruct (is_infinity (func x) && is_finite x); [| exact I].
  destruct can_overflow; [right; left | left]; reflexivity.
Qed.

Lemma truediv_plain_float_error (k : scalar) (x y : float) :
  raises_only_plain_float_errors (Scalars.truediv k x y).
Proof.
  unfold Scalars.truediv. destruct (Scalars.zero_divisor k y); [| exact I].
  right; right; left. reflexivity.
Qed.

Lemma float_pow_plain_float_error (x y : float) :
  raises_only_plain_float_errors (Scalars.float_pow x y).
Proof.
  unfold Scalars.float_pow. cbv zeta.
  repeat match goal with
         | |- raises_only_plain_float_errors (if ?b then _ else _) => destruct b
         end;
    cbn [raises_only_plain_float_errors]; auto.
Qed.

Lemma power_int_plain_float_error (k : scalar) (x : float) (n : Z) :
  raises_only_plain_float_errors (Scalars.power_int k x n).
Proof. destruct k; [exact I | apply float_pow_plain_float_error]. Qed.

Lemma power_plain_float_error (k : scalar) (x y : float) :
  raises_only_plain_float_errors (Scalars.power k x y).
Proof.
  destruct k; [exact I |]. cbn [Scalars.power].
  destruct (Scalars.float_pow_complex x y); [exact I |].
  apply bind_plain_float_error; [apply float_pow_plain_float_error | intros v; exact I].
Qed.

Lemma row_ET0_plain_float_error (k : scalar) (row : WeatherRecord float) :
  raises_only_plain_float_errors (Scalars.row_ET0 k row).
Proof.
  unfold Scalars.row_ET0, Scalars.calculate_delta, Scalars.calculate_VPD, Scalars.Rn,
    Scalars.penman_monteith, Scalars.builtin_round.
  cbn [math_exp math_sin math_cos math_tan math_acos PyFloat_binary64].
  repeat first
    [ apply bind_plain_float_error; [apply math_1_plain_float_error | intros ?]
    | apply bind_plain_float_error; [apply truediv_plain_float_error | intros ?]
    | apply bind_plain_float_error; [apply power_int_plain_float_error | intros ?]
    | apply bind_plain_float_error; [apply power_plain_float_error | intros ?]
    | apply truediv_plain_float_error
    | apply bind_plain_float_error; [| intros ?]
    | match goal with p : (_ * _)%type |- _ => destruct p end
    | match goal with
      | |- raises_only_plain_float_errors (match ?x with Float _ => _ | Complex => _ end) =>
          destruct x
      | |- raises_only_plain_float_errors (if ?b then _ else _) => destruct b
      end
    | exact I
    | (right; right; left; reflexivity)
    | (right; right; right; reflexivity) ].
Qed.

(** X22. On numpy scalars the computation of a record, and so the loop over
    any table, can end with no exception other than the two of the [math]
    module: [ValueError] (the domain error of [acos], or an infinite
    argument of a trigonometric function) and [OverflowError] (of [exp]).
    On plain floats it can also end with [ZeroDivisionError] (a zero
    divisor), with [OverflowError] from a power, and with [TypeError] (the
    [round] of a complex number, when [ea] is negative), and with no
    other. *)
Theorem pipeline_raises_only_math_errors
        (row : WeatherRecord float) (df : list (WeatherRecord float)) :
  (raises_only_math_errors (Scalars.row_ET0 numpy_float64 row) /\
   raises_only_math_errors (Scalars.main_loop numpy_float64 df)) /\
  (raises_only_plain_float_errors (Scalars.row_ET0 python_float row) /\
   raises_only_plain_float_errors (Scalars.main_loop python_float df)).
Proof.
  split; split.
  - rewrite row_ET0_numpy. apply row_ET0_math_error.
  - rewrite main_loop_numpy.
    induction df as [| r rest IH]; cbn [main_loop]; [exact I |].
    apply bind_math_error; [apply row_ET0_math_error |]. intros v.
    apply bind_math_error; [exact IH |]. intros out. exact I.
  - apply row_ET0_plain_float_error.
  - induction df as [| r rest IH]; cbn [Scalars.main_loop]; [exact I |].
    apply bind_plain_float_error; [apply row_ET0_plain_float_error |]. intros v.
    apply bind_plain_float_error; [exact IH |]. intros out. exact I.
Qed.

(** X23. A record with [Tmean = -237.3].  On numpy scalars it does not stop
    the run on account of the slope: whenever the vapour pressure and
    radiation steps return, the value stored for the record is
    [round(NaN, 1)], whatever the other ten columns hold.  On plain floats
    the slope raises [ZeroDivisionError], and the loop ends with it at that
    record. *)
Theorem row_ET0_at_singular_Tmean
        (la tn tx hn hx wind sun p day alt : float) (rest : list (WeatherRecord float)) :
  let row := {| lat := la; Tmin := tn; Tmax := tx; Tmean := - #237.3;
                RHmin := hn; RHmax := hx; uz := wind; n := sun;
                pressure := p; doy := day; z := alt |} in
  Scalars.row_ET0 numpy_float64 row
  = ('(es, ea) <- calculate_VPD tn tx hn hx ;;
     solar_radiation <- Rn la day sun ea tn tx alt ;;
     Ok (round_ndigits nan 1)) /\
  Scalars.row_ET0 python_float row = Raise ZeroDivisionError /\
  Scalars.main_loop python_float (row :: rest) = Raise ZeroDivisionError.
Proof.
  intros row.
  assert (Hdelta : calculate_delta (- #237.3)%py = Ok nan) by (vm_compute; reflexivity).
  assert (Hplain : Scalars.calculate_delta python_float (- #237.3)%py
                   = Raise ZeroDivisionError) by (vm_compute; reflexivity).
  assert (Hrow : Scalars.row_ET0 python_float row = Raise ZeroDivisionError).
  { unfold Scalars.row_ET0, row. cbn [Tmean]. rewrite Hplain. reflexivity. }
  split; [| split; [exact Hrow |]].
  - rewrite row_ET0_numpy. unfold row_ET0, row.
    cbn [lat Tmin Tmax Tmean RHmin RHmax uz n pressure doy z].
    rewrite Hdelta. cbn [bind].
    destruct (calculate_VPD tn tx hn hx) as [[es ea] |]; cbn [bind]; [| reflexivity].
    destruct (Rn la day sun ea tn tx alt) as [sr |]; cbn [bind]; [| reflexivity].
    rewrite penman_monteith_nan_delta. reflexivity.
  - cbn [Scalars.main_loop]. rewrite Hrow. reflexivity.
Qed.

(** X25. A missing value (pandas reads an empty cell as NaN) raises nothing
    in the slope and vapour pressure functions on either kind of row:
    [calculate_delta] of NaN is NaN, and with a NaN temperature
    [calculate_VPD] returns NaN for both [es] and [ea] whenever the
    saturation vapour pressure at the other temperature has a value. *)
Theorem missing_temperature_on_either_kind (k : scalar) (T RHmin RHmax : float) :
  Scalars.calculate_delta k nan = Ok nan /\
  Scalars.calculate_VPD k nan T RHmin RHmax
  = (e <- saturation_vapour_pressure k T ;; Ok (nan, nan)) /\
  Scalars.calculate_VPD k T nan RHmin RHmax
  = (e <- saturation_vapour_pressure k T ;; Ok (nan, nan)).
Proof.
  assert (Hnan : saturation_vapour_pressure k nan = Ok nan)
    by (destruct k; vm_compute; reflexivity).
  split; [destruct k; vm_compute; reflexivity |].
  rewrite !calculate_VPD_satVP, Hnan. cbn [bind].
  destruct (saturation_vapour_pressure k T) as [e |]; cbn [bind]; [| split; reflexivity].
  cbn [add mul div PyFloat_binary64].
  rewrite !mul_nan_l, !add_nan_l, !add_nan_r, !div_nan_l. split; reflexivity.
Qed.

Lemma scalars_main_loop_map_fst
      (k : scalar) (df : list (WeatherRecord float)) (out : list (WeatherRecord float * float)) :
  Scalars.main_loop k df = Ok out -> map fst out = df.
Proof.
  revert out. induction df as [| row rest IH]; intros out; cbn [Scalars.main_loop].
  - intros [= <-]. reflexivity.
  - destruct (Scalars.row_ET0 k row) as [v |]; cbn [bind]; [| discriminate].
    destruct (Scalars.main_loop k rest) as [out' |]; cbn [bind]; [| discriminate].
    intros [= <-]. cbn [map fst]. rewrite (IH out' eq_refl). reflexivity.
Qed.

(** X24. On either kind of row [main] writes all or nothing.  If it writes,
    it writes to the result path the table the loop returned for the table
    read, with the rows of the input unmodified and in order, and returns
    0; otherwise it ends with an exception. *)
Theorem scalars_main_writes_all_or_nothing
        (k : scalar) (read_csv : string -> result (DataFrame float))
        (file result_path : string) :
  match written (Scalars.main k read_csv file result_path) with
  | Some (path, table) =>
      path = result_path /\
      returned (Scalars.main k read_csv file result_path) = Ok 0%Z /\
      exists df, read_csv file = Ok df /\ Scalars.main_loop k df = Ok table /\
                 map fst table = df
  | None => exists e, returned (Scalars.main k read_csv file result_path) = Raise e
  end.
Proof.
  unfold Scalars.main.
  destruct (read_data read_csv file) as [stdout r] eqn:Hread.
  destruct r as [df | e]; cbn [written returned]; [| eexists; reflexivity].
  apply read_data_returns_inv in Hread. destruct Hread as [Hread _].
  destruct (Scalars.main_loop k df) as [table | e] eqn:Hloop; cbn [written returned];
    [| eexists; reflexivity].
  split; [reflexivity |]. split; [reflexivity |].
  exists df. split; [exact Hread |]. split; [exact Hloop |].
  apply scalars_main_loop_map_fst with k. exact Hloop.
Qed.

End ScalarsCoverage.
